(** * SupplierCockpit: schema policies, signup provisioning and the
      measurement form / measurement list handlers

    The development follows the repository:
    - [Js]            JavaScript numbers (binary64), comparison, [parseFloat], [isNaN];
    - [Api]           the calls the components make to the backend client, as a
                      free monad over the call signatures, with React state threaded
                      through and [throw]/[catch]/[finally];
    - [MeasurementForm]  src/components/MeasurementForm.tsx;
    - [MeasurementList]  src/components/MeasurementList.tsx;
    - [Schema]        supabase/migrations: tables, row-level security policies,
                      the signup trigger and the backfill statement.

    Strings are Rocq strings, one character per UTF-16 code unit below 256. *)

From Stdlib Require Import ZArith QArith Ascii String Floats.
From stdpp Require Import base decidable option list strings gmap.

Local Open Scope string_scope.
Set Warnings "-inexact-float".

(* ===================================================================== *)
(** ** JavaScript numbers *)
(* ===================================================================== *)

Module Js.

(** A JS [number] is an IEEE 754 binary64 value. *)
Definition number := float.

(** [a < b] on numbers, ECMA-262 IsLessThan: [None] is the spec's
    [undefined], returned when an operand is NaN. *)
Definition IsLessThan (a b : number) : option bool :=
  match PrimFloat.compare a b with
  | FLt => Some true
  | FEq | FGt => Some false
  | FNotComparable => None
  end.

(** [a >= b]: IsLessThan(a, b); true or undefined gives false. *)
Definition ge (a b : number) : bool :=
  match IsLessThan a b with
  | Some true | None => false
  | Some false => true
  end.

(** [a <= b]: IsLessThan(b, a) with the operands swapped. *)
Definition le (a b : number) : bool :=
  match IsLessThan b a with
  | Some true | None => false
  | Some false => true
  end.

(** The global [isNaN] on a number. *)
Definition isNaN (x : number) : bool := negb (PrimFloat.eqb x x).

(** *** parseFloat (ECMA-262 19.2.4) *)

Definition code (c : ascii) : N := N_of_ascii c.

(** WhiteSpace and LineTerminator code units below 256:
    TAB, LF, VT, FF, CR, SP, NBSP. *)
Definition is_white (c : ascii) : bool :=
  let n := code c in
  ((9 <=? n) && (n <=? 13) || (n =? 32) || (n =? 160))%N.

Fixpoint trim_start (s : string) : string :=
  match s with
  | String c s' => if is_white c then trim_start s' else s
  | EmptyString => s
  end.

Definition is_digit (c : ascii) : bool :=
  ((48 <=? code c) && (code c <=? 57))%N.

Definition digit_value (c : ascii) : Z := Z.of_N (code c) - 48.

(** DecimalDigits: the longest run of digits at the head of [s], most
    significant first, and what follows it. *)
Fixpoint span_digits (s : string) : list Z * string :=
  match s with
  | String c s' =>
      if is_digit c
      then let '(ds, r) := span_digits s' in (digit_value c :: ds, r)
      else ([], s)
  | EmptyString => ([], s)
  end.

Definition digits_value (ds : list Z) : Z :=
  fold_left (fun acc d => 10 * acc + d)%Z ds 0%Z.

(** ExponentPart, when one is present at the head of [s]:
    [e] or [E], an optional sign, and at least one digit. *)
Definition exponent_part (s : string) : option Z :=
  match s with
  | String c s' =>
      if (code c =? 101)%N || (code c =? 69)%N then
        match s' with
        | String "+" s'' =>
            match span_digits s'' with
            | ([], _) => None
            | (ds, _) => Some (digits_value ds)
            end
        | String "-" s'' =>
            match span_digits s'' with
            | ([], _) => None
            | (ds, _) => Some (- digits_value ds)%Z
            end
        | _ =>
            match span_digits s' with
            | ([], _) => None
            | (ds, _) => Some (digits_value ds)
            end
        end
      else None
  | EmptyString => None
  end.

(** The mathematical value [m * 10^e] (with the sign [neg]) rounded to the
    nearest binary64, ties to even. *)
Definition round_decimal (neg : bool) (m e : Z) : number :=
  match (m * 10 ^ Z.max e 0)%Z with
  | Zpos num =>
      SF2Prim (SFdiv prec emax
                 (S754_finite neg num 0)
                 (S754_finite false (Z.to_pos (10 ^ Z.max (- e) 0)) 0))
  | _ => if neg then PrimFloat.neg_zero else PrimFloat.zero
  end.

Definition starts_with (p s : string) : bool :=
  bool_decide (String.substring 0 (String.length p) s = p).

(** The longest prefix of [s] that is a StrUnsignedDecimalLiteral, as its
    value; [None] when no prefix is one. *)
Definition unsigned_literal (neg : bool) (s : string) : option number :=
  if starts_with "Infinity" s
  then Some (if neg then PrimFloat.neg_infinity else PrimFloat.infinity)
  else
    let '(int_ds, r1) := span_digits s in
    match r1 with
    | String "." r1' =>
        let '(frac_ds, r2) := span_digits r1' in
        match int_ds, frac_ds with
        | [], [] => None
        | _, _ =>
            let m := digits_value (int_ds ++ frac_ds) in
            let e := default 0%Z (exponent_part r2) in
            Some (round_decimal neg m (e - Z.of_nat (length frac_ds)))
        end
    | _ =>
        match int_ds with
        | [] => None
        | _ =>
            let m := digits_value int_ds in
            let e := default 0%Z (exponent_part r1) in
            Some (round_decimal neg m e)
        end
    end.

(** StrDecimalLiteral: an optional sign and an unsigned literal. *)
Definition decimal_literal (s : string) : option number :=
  match s with
  | String "+" s' => unsigned_literal false s'
  | String "-" s' => unsigned_literal true s'
  | _ => unsigned_literal false s
  end.

Definition parseFloat (s : string) : number :=
  match decimal_literal (trim_start s) with
  | Some x => x
  | None => PrimFloat.nan
  end.

End Js.

(* ===================================================================== *)
(** ** The backend client as the components use it *)
(* ===================================================================== *)

Module Api.

(** A value received by a [catch] clause: whether it is an [Error]
    instance, and its [message] property. *)
Record thrown := { is_Error : bool; message : string }.

(** [new Error(msg)] *)
Definition new_Error (msg : string) : thrown :=
  {| is_Error := true; message := msg |}.

(** [err instanceof Error ? err.message : 'An error occurred'] *)
Definition error_text (err : thrown) : string :=
  if is_Error err then message err else "An error occurred".

(** The [user] of [supabase.auth.getUser()]. *)
Record User := { user_id : string }.

Inductive table := tbl_suppliers | tbl_quality_parameters | tbl_measurements.

(** The filters a query builder accumulates: [.eq], [.gte], [.lte]. *)
Inductive cond :=
| eq (column value : string)
| gte (column value : string)
| lte (column value : string).

(** The columns named by [.select(...)]: plain columns and embedded
    relations with their own columns. *)
Inductive column :=
| col (name : string)
| embed (relation : string) (names : list string).

(** [.order(column, { ascending })] *)
Record ordering := { order_column : string; ascending : bool }.

Record query := {
  q_from : table;
  q_select : list column;
  q_conds : list cond;
  q_order : list ordering;
}.

(** interface Measurement (MeasurementList.tsx) *)
Record QualityLimits := {
  qp_name : string;
  qp_unit : string;
  min_value : option Js.number;
  max_value : option Js.number;
}.

Record SupplierName := { s_name : string }.

Record Measurement := {
  id : string;
  value : Js.number;
  measured_at : string;
  quality_parameters : QualityLimits;
  suppliers : SupplierName;
}.

(** The object literal inserted by the measurement form. *)
Record NewMeasurement := {
  new_parameter_id : string;
  new_value : Js.number;
  new_measured_at : string;
  new_supplier_id : string;
}.

(** [{ data, error }] of an awaited select. *)
Record select_result := {
  data : option (list Measurement);
  error : option thrown;
}.

(** The callback handed to [setTimeout] by the list's save handler. *)
Inductive timeout_callback := reset_edit_state.

(** The calls the components make, indexed by what they answer.
    A mutation answers its [error] ([None] for [null]). *)
Inductive call : Type -> Type :=
| auth_getUser : call (option User)
| Date_toISOString : call string
| insert (t : table) (rows : list NewMeasurement) : call (option thrown)
| update (t : table) (new_value : Js.number) (conds : list cond)
    : call (option thrown)
| delete (t : table) (conds : list cond) : call (option thrown)
| select (q : query) : call select_result
| setTimeout (cb : timeout_callback) (ms : N) : call unit.

(** Calls that go over the network to the backend. *)
Definition is_network {X} (c : call X) : bool :=
  match c with
  | Date_toISOString | setTimeout _ _ => false
  | _ => true
  end.

(** Programs: a result, or a call and what to do with its answer. *)
Inductive prog (A : Type) : Type :=
| Ret (a : A)
| Do {X : Type} (c : call X) (k : X -> prog A).
Arguments Ret {A} a.
Arguments Do {A X} c k.

Fixpoint prog_bind {A B} (p : prog A) (f : A -> prog B) : prog B :=
  match p with
  | Ret a => f a
  | Do c k => Do c (fun x => prog_bind (k x) f)
  end.

(** An async handler over component state [S]: state updates made
    before an exception stay made. *)
Definition M (S A : Type) : Type := S -> prog (S * (thrown + A)).

Definition ret {S A} (a : A) : M S A := fun s => Ret (s, inr a).

Definition bind {S A B} (m : M S A) (f : A -> M S B) : M S B :=
  fun s => prog_bind (m s) (fun r =>
    match r with
    | (s', inr a) => f a s'
    | (s', inl e) => Ret (s', inl e)
    end).

Definition throw {S A} (e : thrown) : M S A := fun s => Ret (s, inl e).

(** [await] of a call. *)
Definition await {S X} (c : call X) : M S X :=
  fun s => Do c (fun x => Ret (s, inr x)).

(** A [useState] setter. *)
Definition set_state {S} (f : S -> S) : M S unit := fun s => Ret (f s, inr tt).

(** [try { body } catch (err) { handler err }] *)
Definition try_catch {S A} (body : M S A) (handler : thrown -> M S A) : M S A :=
  fun s => prog_bind (body s) (fun r =>
    match r with
    | (s', inl e) => handler e s'
    | ok => Ret ok
    end).

(** [try { body } finally { fin }] *)
Definition try_finally {S A} (body : M S A) (fin : M S unit) : M S A :=
  fun s => prog_bind (body s) (fun r =>
    prog_bind (fin (fst r)) (fun r' =>
      match r' with
      | (s'', inl e) => Ret (s'', inl e)
      | (s'', inr _) => Ret (s'', snd r)
      end)).

Module Notations.
  Notation "x <- m ;; k" := (bind m (fun x => k))
    (at level 100, m at next level, right associativity).
  Notation "m ;; k" := (bind m (fun _ => k))
    (at level 100, right associativity).
End Notations.

(** *** Running a program against a backend *)

Record backend := {
  world : Type;
  respond : forall X, call X -> world -> X * world;
}.

(** One call and its answer. *)
Inductive event : Type :=
| Event {X : Type} (c : call X) (x : X).

Definition network_event (e : event) : bool :=
  match e with Event c _ => is_network c end.

Fixpoint run (b : backend) {A} (p : prog A) (w : world b)
  : A * world b * list event :=
  match p with
  | Ret a => (a, w, [])
  | Do c k =>
      let '(x, w') := respond b _ c w in
      let '(a, w'', tr) := run b (k x) w' in
      (a, w'', Event c x :: tr)
  end.

(** A backend that answers every call from a script and counts the calls
    it has answered. *)
Record script := {
  the_user : option User;
  the_time : string;
  mutation_error : option thrown;
  select_answer : select_result;
}.

Definition answer (sc : script) {X} (c : call X) : X :=
  match c in call X return X with
  | auth_getUser => the_user sc
  | Date_toISOString => the_time sc
  | insert _ _ | update _ _ _ | delete _ _ => mutation_error sc
  | select _ => select_answer sc
  | setTimeout _ _ => tt
  end.

Definition scripted (sc : script) : backend :=
  {| world := nat;
     respond := fun X c n => (answer sc c, S n) |}.

End Api.

(* ===================================================================== *)
(** ** src/components/MeasurementForm.tsx *)
(* ===================================================================== *)

Module MeasurementForm.
Import Api Api.Notations.

Record QualityParameter := {
  qp_id : string;
  qp_name : string;
  qp_unit : string;
  qp_min_value : option Js.number;
  qp_max_value : option Js.number;
}.

(** The component's [useState] cells. *)
Record State := {
  parameters : list QualityParameter;
  selectedParameter : string;
  value : string;
  loading : bool;
  error : option string;
  success : bool;
}.

Definition setSelectedParameter (v : string) (s : State) : State :=
  {| parameters := parameters s; selectedParameter := v; value := value s;
     loading := loading s; error := error s; success := success s |}.

Definition setValue (v : string) (s : State) : State :=
  {| parameters := parameters s; selectedParameter := selectedParameter s;
     value := v; loading := loading s; error := error s;
     success := success s |}.

Definition setLoading (v : bool) (s : State) : State :=
  {| parameters := parameters s; selectedParameter := selectedParameter s;
     value := value s; loading := v; error := error s; success := success s |}.

Definition setError (v : option string) (s : State) : State :=
  {| parameters := parameters s; selectedParameter := selectedParameter s;
     value := value s; loading := loading s; error := v;
     success := success s |}.

Definition setSuccess (v : bool) (s : State) : State :=
  {| parameters := parameters s; selectedParameter := selectedParameter s;
     value := value s; loading := loading s; error := error s; success := v |}.

(** The row built by the object literal of [handleSubmit]; [render] is the
    render whose closure the handler is, [now] the answer of
    [new Date().toISOString()]. *)
Definition inserted_row (render : State) (user : User) (now : string)
  : NewMeasurement :=
  {| new_parameter_id := selectedParameter render;
     new_value := Js.parseFloat (value render);
     new_measured_at := now;
     new_supplier_id := user_id user |}.

(** [handleSubmit], lines 69-97.  [e.preventDefault()] touches no state
    and makes no call. *)
Definition handleSubmit (render : State) : M State unit :=
  set_state (setLoading true) ;;
  set_state (setError None) ;;
  set_state (setSuccess false) ;;
  try_finally
    (try_catch
       (user <- await auth_getUser ;;
        match user with
        | None => throw (new_Error "No authenticated user")
        | Some user =>
            now <- await Date_toISOString ;;
            error <- await (insert tbl_measurements
                              [inserted_row render user now]) ;;
            match error with
            | Some error => throw error
            | None =>
                set_state (setSuccess true) ;;
                set_state (setValue "") ;;
                set_state (setSelectedParameter "")
            end
        end)
       (fun err => set_state (setError (Some (error_text err)))))
    (set_state (setLoading false)).

(** *** The form element

    [<select id="parameter" value={selectedParameter} required>] opens with
    the placeholder [<option value="">]: with [required], the control is
    missing its value while that option is the selected one.
    [<input type="number" id="value" value={value} required>] holds the
    text it is given only when that is a valid floating-point number and
    the empty string otherwise, and is missing its value while it holds
    the empty string. *)
Definition parameter_missing (s : State) : bool :=
  bool_decide (selectedParameter s = "").

(** An exponent: [e] or [E], an optional sign, digits, and nothing after. *)
Definition exponent_to_end (s : string) : bool :=
  match s with
  | String c s' =>
      ((Js.code c =? 101)%N || (Js.code c =? 69)%N)
      && match s' with
         | String "+" s'' | String "-" s'' =>
             match Js.span_digits s'' with
             | (_ :: _, EmptyString) => true
             | _ => false
             end
         | _ =>
             match Js.span_digits s' with
             | (_ :: _, EmptyString) => true
             | _ => false
             end
         end
  | EmptyString => false
  end.

(** What may follow the digits before and after the point: nothing, or an
    exponent. *)
Definition end_or_exponent (s : string) : bool :=
  match s with
  | EmptyString => true
  | _ => exponent_to_end s
  end.

(** HTML's valid floating-point number: an optional [-]; digits, or
    digits, a point and digits, or a point and digits; an optional
    exponent. *)
Definition valid_floating_point_number (s : string) : bool :=
  let unsigned := match s with String "-" s' => s' | _ => s end in
  let '(int_ds, r1) := Js.span_digits unsigned in
  match r1 with
  | String "." r1' =>
      match Js.span_digits r1' with
      | (_ :: _, r2) => end_or_exponent r2
      | ([], _) => false
      end
  | _ =>
      match int_ds with
      | [] => false
      | _ => end_or_exponent r1
      end
  end.

(** The value sanitization of the number input. *)
Definition sanitized (text : string) : string :=
  if valid_floating_point_number text then text else "".

Definition value_missing (s : State) : bool :=
  bool_decide (sanitized (value s) = "").

Definition checkValidity (s : State) : bool :=
  negb (parameter_missing s) && negb (value_missing s).

(** Pressing the submit button ([disabled={loading}]) of
    [<form onSubmit={handleSubmit}>]: the form is validated, and
    the submit event reaches [handleSubmit] only when it is valid. *)
Definition submit (s : State) : prog (State * (thrown + unit)) :=
  if loading s then Ret (s, inr tt)
  else if checkValidity s then handleSubmit s s
  else Ret (s, inr tt).

End MeasurementForm.

(* ===================================================================== *)
(** ** src/components/MeasurementList.tsx *)
(* ===================================================================== *)

Module MeasurementList.
Import Api Api.Notations.

Inductive Status := all | within | outside.

#[global] Instance Status_eq_dec : EqDecision Status.
Proof. solve_decision. Defined.

Record Filter := {
  startDate : string;
  endDate : string;
  parameter : string;
  status : Status;
}.

Record State := {
  measurements : list Measurement;
  loading : bool;
  error : option string;
  editingId : option string;
  editValue : string;
  updateSuccess : bool;
  deletingId : option string;
  parameters : list (string * string);
  filters : Filter;
}.

Definition setMeasurements (v : list Measurement) (s : State) : State :=
  {| measurements := v; loading := loading s; error := error s;
     editingId := editingId s; editValue := editValue s;
     updateSuccess := updateSuccess s; deletingId := deletingId s;
     parameters := parameters s; filters := filters s |}.

Definition setLoading (v : bool) (s : State) : State :=
  {| measurements := measurements s; loading := v; error := error s;
     editingId := editingId s; editValue := editValue s;
     updateSuccess := updateSuccess s; deletingId := deletingId s;
     parameters := parameters s; filters := filters s |}.

Definition setError (v : option string) (s : State) : State :=
  {| measurements := measurements s; loading := loading s; error := v;
     editingId := editingId s; editValue := editValue s;
     updateSuccess := updateSuccess s; deletingId := deletingId s;
     parameters := parameters s; filters := filters s |}.

Definition setEditingId (v : option string) (s : State) : State :=
  {| measurements := measurements s; loading := loading s; error := error s;
     editingId := v; editValue := editValue s;
     updateSuccess := updateSuccess s; deletingId := deletingId s;
     parameters := parameters s; filters := filters s |}.

Definition setEditValue (v : string) (s : State) : State :=
  {| measurements := measurements s; loading := loading s; error := error s;
     editingId := editingId s; editValue := v;
     updateSuccess := updateSuccess s; deletingId := deletingId s;
     parameters := parameters s; filters := filters s |}.

Definition setUpdateSuccess (v : bool) (s : State) : State :=
  {| measurements := measurements s; loading := loading s; error := error s;
     editingId := editingId s; editValue := editValue s;
     updateSuccess := v; deletingId := deletingId s;
     parameters := parameters s; filters := filters s |}.

Definition setDeletingId (v : option string) (s : State) : State :=
  {| measurements := measurements s; loading := loading s; error := error s;
     editingId := editingId s; editValue := editValue s;
     updateSuccess := updateSuccess s; deletingId := v;
     parameters := parameters s; filters := filters s |}.

(** *** The query builder *)

Definition from (t : table) : query :=
  {| q_from := t; q_select := []; q_conds := []; q_order := [] |}.

Definition select_ (cols : list column) (q : query) : query :=
  {| q_from := q_from q; q_select := cols; q_conds := q_conds q;
     q_order := q_order q |}.

Definition filter_ (c : cond) (q : query) : query :=
  {| q_from := q_from q; q_select := q_select q;
     q_conds := q_conds q ++ [c]; q_order := q_order q |}.

Definition order (column : string) (asc : bool) (q : query) : query :=
  {| q_from := q_from q; q_select := q_select q; q_conds := q_conds q;
     q_order := q_order q ++ [{| order_column := column; ascending := asc |}] |}.

(** A string used as a condition is true when it is not empty. *)
Definition truthy (s : string) : bool := negb (String.eqb s "").

(** *** Within limits *)

(** [limit === null || test limit] *)
Definition null_or (limit : option Js.number) (test : Js.number -> bool) : bool :=
  match limit with
  | None => true
  | Some l => test l
  end.

(** [isWithinLimits] of the filter callback, lines 103-107. *)
Definition isWithinLimits_filter (measurement : Measurement) : bool :=
  null_or (min_value (quality_parameters measurement))
          (fun lo => Js.ge (value measurement) lo)
  && null_or (max_value (quality_parameters measurement))
          (fun hi => Js.le (value measurement) hi).

(** The filter callback, lines 102-110. *)
Definition status_callback (f : Filter) (measurement : Measurement) : bool :=
  let isWithinLimits := isWithinLimits_filter measurement in
  if decide (status f = within) then isWithinLimits else negb isWithinLimits.

(** Lines 99-111. *)
Definition status_filter (f : Filter) (data : option (list Measurement))
  : list Measurement :=
  let filteredData := default [] data in
  if decide (status f <> all)
  then List.filter (status_callback f) filteredData
  else filteredData.

(** [isWithinLimits] of a rendered row, lines 272-276, and its badge,
    lines 314-323. *)
Definition isWithinLimits_row (measurement : Measurement) : bool :=
  null_or (min_value (quality_parameters measurement))
          (fun lo => Js.ge (value measurement) lo)
  && null_or (max_value (quality_parameters measurement))
          (fun hi => Js.le (value measurement) hi).

Definition badge (measurement : Measurement) : string :=
  if isWithinLimits_row measurement then "Within Limits" else "Out of Limits".

(** *** loadMeasurements, lines 61-119 *)

Definition measurement_columns : list column :=
  [col "id"; col "value"; col "measured_at";
   embed "quality_parameters" ["name"; "unit"; "min_value"; "max_value"];
   embed "suppliers" ["name"]].

Definition build_query (f : Filter) (user : User) : query :=
  let query :=
    order "measured_at" false
      (filter_ (eq "supplier_id" (user_id user))
         (select_ measurement_columns (from tbl_measurements))) in
  let query :=
    if truthy (startDate f)
    then filter_ (gte "measured_at" (startDate f)) query else query in
  let query :=
    if truthy (endDate f)
    then filter_ (lte "measured_at" (endDate f)) query else query in
  let query :=
    if truthy (parameter f)
    then filter_ (eq "parameter_id" (parameter f)) query else query in
  query.

Definition loadMeasurements (render : State) : M State unit :=
  try_finally
    (try_catch
       (user <- await auth_getUser ;;
        match user with
        | None => throw (new_Error "No authenticated user")
        | Some user =>
            r <- await (select (build_query (filters render) user)) ;;
            match Api.error r with
            | Some error => throw error
            | None =>
                set_state (setMeasurements
                             (status_filter (filters render) (data r)))
            end
        end)
       (fun err => set_state (setError (Some (error_text err)))))
    (set_state (setLoading false)).

(** *** handleUpdate, lines 133-163 *)

(** [{ ...m, value: newValue }] *)
Definition with_value (m : Measurement) (newValue : Js.number) : Measurement :=
  {| id := id m; value := newValue; measured_at := measured_at m;
     quality_parameters := quality_parameters m; suppliers := suppliers m |}.

(** [m => m.id === measurement.id ? { ...m, value: newValue } : m] *)
Definition replace_value (measurement : Measurement) (newValue : Js.number)
  (m : Measurement) : Measurement :=
  if String.eqb (id m) (id measurement) then with_value m newValue else m.

(** The callback of [setTimeout], lines 154-158. *)
Definition fire (cb : timeout_callback) (s : State) : State :=
  match cb with
  | reset_edit_state =>
      setUpdateSuccess false (setEditValue "" (setEditingId None s))
  end.

Definition handleUpdate (render : State) (measurement : Measurement)
  : M State unit :=
  try_catch
    (let newValue := Js.parseFloat (editValue render) in
     (if Js.isNaN newValue
      then throw (new_Error "Please enter a valid number")
      else ret tt) ;;
     error <- await (update tbl_measurements newValue
                       [eq "id" (id measurement)]) ;;
     match error with
     | Some error => throw error
     | None =>
         set_state (setUpdateSuccess true) ;;
         set_state (setMeasurements
                      (map (replace_value measurement newValue)
                           (measurements render))) ;;
         await (setTimeout reset_edit_state 1500)
     end)
    (fun err => set_state (setError (Some (error_text err)))).

(** *** handleDelete, lines 165-179 *)

(** [m => m.id !== id] *)
Definition other_than (id' : string) (m : Measurement) : bool :=
  negb (String.eqb (id m) id').

Definition handleDelete (render : State) (id' : string) : M State unit :=
  try_catch
    (error <- await (delete tbl_measurements [eq "id" id']) ;;
     match error with
     | Some error => throw error
     | None =>
         set_state (setMeasurements
                      (List.filter (other_than id') (measurements render))) ;;
         set_state (setDeletingId None)
     end)
    (fun err => set_state (setError (Some (error_text err)))).

End MeasurementList.

(* ===================================================================== *)
(** ** supabase/migrations *)
(* ===================================================================== *)

Module Schema.

(** A [uuid] is held by its canonical text, so that [::text] is the
    identity on it; [timestamptz] is a count of microseconds and [numeric]
    a rational. *)
Definition uuid := string.
Definition timestamptz := Z.
Definition numeric := Q.

(** *** Tables (20250222100323_azure_tooth.sql, lines 31-58) *)

Record supplier := {
  id : uuid;
  name : string;
  email : string;
  created_at : timestamptz;
}.

Record measurement := {
  m_id : uuid;
  supplier_id : uuid;
  parameter_id : uuid;
  value : numeric;
  measured_at : timestamptz;
  m_created_at : timestamptz;
}.

(** *** Row-level security *)

Inductive command := ALL | SELECT | INSERT | UPDATE | DELETE.

#[global] Instance command_eq_dec : EqDecision command.
Proof. solve_decision. Defined.

Inductive role := anon | authenticated.

#[global] Instance role_eq_dec : EqDecision role.
Proof. solve_decision. Defined.

#[global] Instance table_eq_dec : EqDecision Api.table.
Proof. solve_decision. Defined.

(** Who runs a statement through the API: [auth.uid()] is NULL for [anon]. *)
Inductive actor := Anon | Authenticated (uid : uuid).

Definition role_of (a : actor) : role :=
  match a with Anon => anon | Authenticated _ => authenticated end.

Definition auth_uid (a : actor) : option uuid :=
  match a with Anon => None | Authenticated uid => Some uid end.

(** The uuid columns the policies name. *)
Inductive uuid_column := c_id | c_supplier_id.

(** [auth.uid()::text] and [column::text] *)
Inductive text_expr :=
| auth_uid_text
| column_text (c : uuid_column).

(** [true] and [a = b] *)
Inductive bool_expr :=
| sql_true
| sql_eq (a b : text_expr).

Record policy := {
  policy_name : string;
  on_table : Api.table;
  for_command : command;
  to_roles : list role;
  USING : option bool_expr;
  WITH_CHECK : option bool_expr;
}.

(** [ALTER TABLE ... ENABLE ROW LEVEL SECURITY], lines 61-63. *)
Definition rls_enabled (t : Api.table) : bool := true.

(** The [CREATE POLICY] statements of 20250222100323_azure_tooth.sql,
    lines 65-97. *)
Definition suppliers_read_own_data : policy :=
  {| policy_name := "Suppliers can read own data";
     on_table := Api.tbl_suppliers; for_command := SELECT;
     to_roles := [authenticated];
     USING := Some (sql_eq auth_uid_text (column_text c_id));
     WITH_CHECK := None |}.

Definition quality_parameters_readable : policy :=
  {| policy_name := "Quality parameters are readable by all authenticated users";
     on_table := Api.tbl_quality_parameters; for_command := SELECT;
     to_roles := [authenticated];
     USING := Some sql_true;
     WITH_CHECK := None |}.

Definition read_own_measurements : policy :=
  {| policy_name := "Suppliers can read own measurements";
     on_table := Api.tbl_measurements; for_command := SELECT;
     to_roles := [authenticated];
     USING := Some (sql_eq (column_text c_supplier_id) auth_uid_text);
     WITH_CHECK := None |}.

Definition insert_own_measurements : policy :=
  {| policy_name := "Suppliers can insert own measurements";
     on_table := Api.tbl_measurements; for_command := INSERT;
     to_roles := [authenticated];
     USING := None;
     WITH_CHECK := Some (sql_eq (column_text c_supplier_id) auth_uid_text) |}.

Definition update_own_measurements : policy :=
  {| policy_name := "Suppliers can update own measurements";
     on_table := Api.tbl_measurements; for_command := UPDATE;
     to_roles := [authenticated];
     USING := Some (sql_eq (column_text c_supplier_id) auth_uid_text);
     WITH_CHECK := Some (sql_eq (column_text c_supplier_id) auth_uid_text) |}.

(** The [CREATE POLICY] statements of the later migration that opens the
    quality parameters to writes. *)
Definition insert_quality_parameters : policy :=
  {| policy_name := "Authenticated users can insert quality parameters";
     on_table := Api.tbl_quality_parameters; for_command := INSERT;
     to_roles := [authenticated];
     USING := None;
     WITH_CHECK := Some sql_true |}.

Definition update_quality_parameters : policy :=
  {| policy_name := "Authenticated users can update quality parameters";
     on_table := Api.tbl_quality_parameters; for_command := UPDATE;
     to_roles := [authenticated];
     USING := Some sql_true;
     WITH_CHECK := Some sql_true |}.

(** Every policy of the schema, in the order the migrations create them. *)
Definition policies : list policy :=
  [suppliers_read_own_data; quality_parameters_readable;
   read_own_measurements; insert_own_measurements; update_own_measurements;
   insert_quality_parameters; update_quality_parameters].

(** A row as a policy expression sees it: its uuid columns, NULL ([None])
    for a column the table does not have. *)
Definition row_view := uuid_column -> option uuid.

Definition measurement_view (r : measurement) : row_view :=
  fun c => match c with
           | c_id => Some (m_id r)
           | c_supplier_id => Some (supplier_id r)
           end.

Definition supplier_view (r : supplier) : row_view :=
  fun c => match c with
           | c_id => Some (id r)
           | c_supplier_id => None
           end.

Definition eval_text (a : actor) (r : row_view) (e : text_expr) : option string :=
  match e with
  | auth_uid_text => auth_uid a
  | column_text c => r c
  end.

(** SQL's three-valued logic: a comparison with NULL is NULL. *)
Definition eval_bool (a : actor) (r : row_view) (e : bool_expr) : option bool :=
  match e with
  | sql_true => Some true
  | sql_eq x y =>
      match eval_text a r x, eval_text a r y with
      | Some u, Some v => Some (String.eqb u v)
      | _, _ => None
      end
  end.

(** A row passes an expression only when it evaluates to true. *)
Definition passes (a : actor) (r : row_view) (e : bool_expr) : bool :=
  match eval_bool a r e with
  | Some true => true
  | _ => false
  end.

(** The policies that apply to a command of an actor on a table. *)
Definition applies (t : Api.table) (c : command) (a : actor) (p : policy) : bool :=
  bool_decide (on_table p = t)
  && (bool_decide (for_command p = ALL) || bool_decide (for_command p = c))
  && bool_decide (role_of a ∈ to_roles p).

Definition applicable (t : Api.table) (c : command) (a : actor) : list policy :=
  List.filter (applies t c a) policies.

(** USING: an existing row is within reach of the command when some
    applicable policy's USING expression passes; with no applicable policy
    nothing is (default deny). *)
Definition using_ok (t : Api.table) (c : command) (a : actor) (r : row_view) : bool :=
  negb (rls_enabled t)
  || existsb (fun p => match USING p with
                       | Some e => passes a r e
                       | None => false
                       end) (applicable t c a).

(** WITH CHECK: a new row is accepted when some applicable policy's
    WITH CHECK expression (its USING expression when it has no WITH CHECK)
    passes. *)
Definition with_check_ok (t : Api.table) (c : command) (a : actor) (r : row_view) : bool :=
  negb (rls_enabled t)
  || existsb (fun p => match WITH_CHECK p, USING p with
                       | Some e, _ | None, Some e => passes a r e
                       | None, None => false
                       end) (applicable t c a).

(** What the policy layer lets an actor do to the measurements table: read
    the rows in reach, add a row that is accepted, replace or remove a row
    in reach.  An UPDATE or DELETE with a WHERE clause also reads, so the
    SELECT policies bear on its rows too. *)
Inductive action :=
| act_select (returned : list measurement)
| act_insert (new : measurement)
| act_update (old new : measurement)
| act_delete (old : measurement).

Definition visible (a : actor) (r : measurement) : bool :=
  using_ok Api.tbl_measurements SELECT a (measurement_view r).

Inductive step (a : actor) : list measurement -> action -> list measurement -> Prop :=
| step_select (where_ : measurement -> bool) rows :
    step a rows
      (act_select (List.filter (fun r => visible a r && where_ r) rows)) rows
| step_insert rows new :
    with_check_ok Api.tbl_measurements INSERT a (measurement_view new) = true ->
    step a rows (act_insert new) (rows ++ [new])
| step_update before old after new :
    visible a old = true ->
    using_ok Api.tbl_measurements UPDATE a (measurement_view old) = true ->
    with_check_ok Api.tbl_measurements UPDATE a (measurement_view new) = true ->
    visible a new = true ->
    step a (before ++ old :: after) (act_update old new) (before ++ new :: after)
| step_delete before old after :
    visible a old = true ->
    using_ok Api.tbl_measurements DELETE a (measurement_view old) = true ->
    step a (before ++ old :: after) (act_delete old) (before ++ after).

(** The rows of the table owned by someone other than [uid]. *)
Definition owned_by_others (uid : uuid) (rows : list measurement)
  : list measurement :=
  List.filter (fun r => negb (String.eqb (supplier_id r) uid)) rows.

(** *** Signup provisioning (20250224101636_cold_cell.sql, lines 14-33) *)

(** A jsonb value under a key of the metadata object: JSON null, a string,
    or anything else, held by its text. *)
Inductive json_value :=
| j_null
| j_string (s : string)
| j_other (text : string).

Inductive jsonb :=
| j_object (fields : gmap string json_value)
| j_not_object.

(** A row of [auth.users], the columns the trigger reads. *)
Record auth_user := {
  au_id : uuid;
  au_email : option string;
  raw_user_meta_data : option jsonb;
}.

(** [j ->> key]: NULL when [j] is NULL or no object, when it lacks the
    key, and when the value is JSON null. *)
Definition get_text (j : option jsonb) (key : string) : option string :=
  match j with
  | Some (j_object fields) =>
      match fields !! key with
      | Some (j_string s) => Some s
      | Some (j_other text) => Some text
      | Some j_null | None => None
      end
  | Some j_not_object | None => None
  end.

Definition COALESCE (a b : option string) : option string :=
  match a with
  | Some x => Some x
  | None => b
  end.

Inductive sql_error :=
| not_null_violation (column : string)
| unique_violation (constraint : string).

Definition ids (rows : list supplier) : list uuid := map id rows.
Definition emails (rows : list supplier) : list string := map email rows.

(** The supplier rows of the identity [i]. *)
Definition rows_of (i : uuid) (rows : list supplier) : list supplier :=
  List.filter (fun r => String.eqb (id r) i) rows.

(** What [INSERT INTO public.suppliers (id, email, name)] does with one
    row: NOT NULL on [name] and [email], tested in the order of the table's
    columns (id, name, email), then the primary key on [id] and UNIQUE on
    [email]; [created_at] defaults to [now()].  With
    [ON CONFLICT (id) DO NOTHING] a taken id leaves the table as it is. *)
Definition insert_supplier (on_conflict_do_nothing : bool) (now : timestamptz)
  (id' : uuid) (email' name' : option string) (rows : list supplier)
  : sql_error + list supplier :=
  match name', email' with
  | None, _ => inl (not_null_violation "name")
  | _, None => inl (not_null_violation "email")
  | Some n, Some e =>
      if bool_decide (id' ∈ ids rows)
      then if on_conflict_do_nothing then inr rows
           else inl (unique_violation "suppliers_pkey")
      else if bool_decide (e ∈ emails rows)
      then inl (unique_violation "suppliers_email_key")
      else inr (rows ++ [{| id := id'; name := n; email := e;
                            created_at := now |}])%list
  end.

(** [handle_new_user()], lines 14-21.  SECURITY DEFINER: the insert runs as
    the function's owner, past the policies of [suppliers]. *)
Definition handle_new_user (now : timestamptz) (new : auth_user)
  (rows : list supplier) : sql_error + list supplier :=
  insert_supplier false now (au_id new) (au_email new)
    (COALESCE (get_text (raw_user_meta_data new) "full_name") (au_email new))
    rows.

Record db := {
  auth_users : list auth_user;
  suppliers : list supplier;
}.

(** A new row of [auth.users] ([id] is its primary key) and the trigger
    [on_auth_user_created], AFTER INSERT FOR EACH ROW, lines 24-26: an error
    of the trigger undoes the insert. *)
Definition signup (now : timestamptz) (new : auth_user) (d : db) : sql_error + db :=
  if bool_decide (au_id new ∈ map au_id (auth_users d))
  then inl (unique_violation "users_pkey")
  else match handle_new_user now new (suppliers d) with
       | inl e => inl e
       | inr rows => inr {| auth_users := (auth_users d ++ [new])%list;
                            suppliers := rows |}
       end.

(** The backfill statement, lines 29-33: the rows selected from
    [auth.users] are inserted one after the other. *)
Fixpoint insert_selected (now : timestamptz) (selected : list auth_user)
  (rows : list supplier) : sql_error + list supplier :=
  match selected with
  | [] => inr rows
  | u :: rest =>
      match insert_supplier true now (au_id u) (au_email u) (au_email u) rows with
      | inl e => inl e
      | inr rows' => insert_selected now rest rows'
      end
  end.

Definition backfill (now : timestamptz) (d : db) : sql_error + db :=
  let selected :=
    List.filter (fun u => negb (bool_decide (au_id u ∈ ids (suppliers d))))
      (auth_users d) in
  match insert_selected now selected (suppliers d) with
  | inl e => inl e
  | inr rows => inr {| auth_users := auth_users d; suppliers := rows |}
  end.

End Schema.

(* ===================================================================== *)
(** ** The specification's own wording, for comparison with the code *)
(* ===================================================================== *)

Module Spec.

(** [a] is at most [b], as binary64 values; no NaN is at most or at least
    anything. *)
Definition at_most (a b : Js.number) : Prop := PrimFloat.leb a b = true.

(** "(no min_value configured, or value >= min_value) AND
     (no max_value configured, or value <= max_value)" *)
Definition within_limits (min_value max_value : option Js.number)
  (value : Js.number) : Prop :=
  (min_value = None \/ exists lo, min_value = Some lo /\ at_most lo value)
  /\ (max_value = None \/ exists hi, max_value = Some hi /\ at_most value hi).

Definition within_limits_of (m : Api.Measurement) : Prop :=
  within_limits (Api.min_value (Api.quality_parameters m))
                (Api.max_value (Api.quality_parameters m))
                (Api.value m).

(** "failure ... surfaces the error message": what the form shows is the
    message of what was thrown. *)
Definition surfaces_message (shown : option string) (err : Api.thrown) : Prop :=
  shown = Some (Api.message err).

(** "a backfill statement performs the same insertion for any pre-existing
    identities lacking a supplier row": the row the trigger inserts for
    such an identity is in the table once the backfill has run. *)
Definition backfill_inserts_trigger_row (now : Schema.timestamptz)
  (d : Schema.db) : Prop :=
  forall d', Schema.backfill now d = inr d' ->
  forall u, In u (Schema.auth_users d) ->
  ~ In (Schema.au_id u) (Schema.ids (Schema.suppliers d)) ->
  forall rows, Schema.handle_new_user now u (Schema.suppliers d) = inr rows ->
  forall r, In r rows -> Schema.id r = Schema.au_id u ->
  In r (Schema.suppliers d').

End Spec.

(* ===================================================================== *)
(** ** Concrete states and backends the statements are tried on *)
(* ===================================================================== *)

Module Examples.
Import Api.

Definition alice : User := {| user_id := "a1" |}.

Definition accepting : script :=
  {| the_user := Some alice;
     the_time := "2025-02-24T10:16:36.000Z";
     mutation_error := None;
     select_answer := {| data := Some []; error := None |} |}.

Definition rejecting : script :=
  {| the_user := Some alice;
     the_time := "2025-02-24T10:16:36.000Z";
     mutation_error :=
       Some {| is_Error := false;
               message := "new row violates row-level security policy" |};
     select_answer := {| data := None; error := None |} |}.

(** A form with a value typed in and no parameter chosen. *)
Definition form_without_parameter : MeasurementForm.State :=
  {| MeasurementForm.parameters := [];
     MeasurementForm.selectedParameter := "";
     MeasurementForm.value := "12.5";
     MeasurementForm.loading := false;
     MeasurementForm.error := None;
     MeasurementForm.success := false |}.

(** A form with a parameter chosen and a value typed in. *)
Definition form_filled : MeasurementForm.State :=
  {| MeasurementForm.parameters := [];
     MeasurementForm.selectedParameter := "p1";
     MeasurementForm.value := "12.5";
     MeasurementForm.loading := false;
     MeasurementForm.error := None;
     MeasurementForm.success := false |}.

(** A form with a parameter chosen and a value with no numeric prefix. *)
Definition form_without_number : MeasurementForm.State :=
  {| MeasurementForm.parameters := [];
     MeasurementForm.selectedParameter := "p1";
     MeasurementForm.value := "abc";
     MeasurementForm.loading := false;
     MeasurementForm.error := None;
     MeasurementForm.success := false |}.

Definition reading (id' : string) (v : Js.number) : Measurement :=
  {| id := id'; value := v; measured_at := "2025-02-22T10:03:23+00:00";
     quality_parameters :=
       {| qp_name := "Diameter"; qp_unit := "mm";
          min_value := Some 10%float; max_value := Some 20%float |};
     suppliers := {| s_name := "Test Supplier" |} |}.

(** A list of three rows, the second being edited with the buffer "abc". *)
Definition list_editing : MeasurementList.State :=
  {| MeasurementList.measurements :=
       [reading "m1" 10%float; reading "m2" 9.99%float; reading "m3" 20.01%float];
     MeasurementList.loading := false;
     MeasurementList.error := None;
     MeasurementList.editingId := Some "m2";
     MeasurementList.editValue := "abc";
     MeasurementList.updateSuccess := false;
     MeasurementList.deletingId := None;
     MeasurementList.parameters := [];
     MeasurementList.filters :=
       {| MeasurementList.startDate := ""; MeasurementList.endDate := "";
          MeasurementList.parameter := ""; MeasurementList.status := MeasurementList.all |} |}.

(** An identity that signed up with a full name before the trigger
    existed, and the database the backfill then finds. *)
Definition named_user : Schema.auth_user :=
  {| Schema.au_id := "a1";
     Schema.au_email := Some "alice@example.com";
     Schema.raw_user_meta_data :=
       Some (Schema.j_object {[ "full_name" := Schema.j_string "Alice" ]}) |}.

Definition test_supplier : Schema.supplier :=
  {| Schema.id := "00000000-0000-0000-0000-000000000000";
     Schema.name := "Test Supplier";
     Schema.email := "supplier@test.com";
     Schema.created_at := 0%Z |}.

Definition before_backfill : Schema.db :=
  {| Schema.auth_users := [named_user];
     Schema.suppliers := [test_supplier] |}.

Definition before_signup : Schema.db :=
  {| Schema.auth_users := [];
     Schema.suppliers := [test_supplier] |}.

(** A measurement of Alice's. *)
Definition alices_row : Schema.measurement :=
  {| Schema.m_id := "m1"; Schema.supplier_id := "a1";
     Schema.parameter_id := "p1"; Schema.value := 10%Q;
     Schema.measured_at := 0%Z; Schema.m_created_at := 0%Z |}.

End Examples.

(* ===================================================================== *)
(** ** Histories of the measurements table, and provisioned databases *)
(* ===================================================================== *)

Module Tenancy.
Import Schema.

(** The rows of the table owned by [uid]. *)
Definition owned_by (uid : uuid) (rows : list measurement) : list measurement :=
  List.filter (fun r => String.eqb (supplier_id r) uid) rows.

(** A history: the steps the policy layer let through, each with the
    actor that made it, oldest first. *)
Inductive steps : list measurement -> list (actor * action) -> list measurement -> Prop :=
| steps_nil rows : steps rows [] rows
| steps_cons rows a act rows1 history rows2 :
    step a rows act rows1 ->
    steps rows1 history rows2 ->
    steps rows ((a, act) :: history) rows2.

Definition is_insert (entry : actor * action) : bool :=
  match snd entry with act_insert _ => true | _ => false end.

Definition inserts (history : list (actor * action)) : nat :=
  length (List.filter is_insert history).

End Tenancy.

Module Provisioning.
Import Schema.

(** The keys of the two tables hold: [auth.users.id], the primary key and
    the UNIQUE email of [suppliers]. *)
Definition consistent (d : db) : Prop :=
  NoDup (map au_id (auth_users d))
  /\ NoDup (ids (suppliers d))
  /\ NoDup (emails (suppliers d)).

(** Every identity has a supplier row. *)
Definition provisioned (d : db) : Prop :=
  forall u, In u (auth_users d) -> In (au_id u) (ids (suppliers d)).

End Provisioning.

(* ===================================================================== *)
(** ** The measurement list as it is rendered *)
(* ===================================================================== *)

Module ListView.
Import Api Api.Notations MeasurementList.

(** [handleEdit], lines 121-125.  [Number_toString] is the host's
    [Number.prototype.toString]. *)
Definition handleEdit (Number_toString : Js.number -> string)
  (measurement : Measurement) : M State unit :=
  set_state (setEditingId (Some (id measurement))) ;;
  set_state (setEditValue (Number_toString (value measurement))) ;;
  set_state (setUpdateSuccess false).

(** [handleCancel], lines 127-131. *)
Definition handleCancel : M State unit :=
  set_state (setEditingId None) ;;
  set_state (setEditValue "") ;;
  set_state (setUpdateSuccess false).

(** What the component returns, lines 181-193: the loading line, the
    error box, or the filters and the table.  [if (error)] holds of a
    string that is not empty: null and the empty string give the table. *)
Inductive view := loading_view | error_view (msg : string) | table_view.

Definition render (s : State) : view :=
  if loading s then loading_view
  else match error s with
       | Some msg => if truthy msg then error_view msg else table_view
       | None => table_view
       end.

(** [editingId === measurement.id], [deletingId === measurement.id] *)
Definition editing (s : State) (m : Measurement) : bool :=
  bool_decide (editingId s = Some (id m)).

Definition deleting (s : State) (m : Measurement) : bool :=
  bool_decide (deletingId s = Some (id m)).

(** The controls of a table row: the value input of a row being edited
    (lines 289-307) and the buttons of its last cell (lines 325-372). *)
Inductive control :=
| value_input (text : string)
| Save
| Cancel_edit
| Edit
| Confirm
| Cancel_delete
| Delete.

(** Whether the row of [m] shows the control. *)
Definition shown (s : State) (m : Measurement) (c : control) : bool :=
  match c with
  | value_input _ | Save | Cancel_edit => editing s m
  | Edit => negb (editing s m)
  | Confirm | Cancel_delete => negb (editing s m) && deleting s m
  | Delete => negb (editing s m) && negb (deleting s m)
  end.

(** What the control does when used, in the render [s]. *)
Definition handler (Number_toString : Js.number -> string) (s : State)
  (m : Measurement) (c : control) : M State unit :=
  match c with
  | value_input text => set_state (setEditValue text)
  | Save => handleUpdate s m
  | Cancel_edit => handleCancel
  | Edit => handleEdit Number_toString m
  | Confirm => handleDelete s (id m)
  | Cancel_delete => set_state (setDeletingId None)
  | Delete => set_state (setDeletingId (Some (id m)))
  end.

(** What can happen to the mounted list apart from a change of the
    filters: a control of the [row]-th row is used, or a timer set by a
    save fires. *)
Inductive ui_event :=
| on_row (row : nat) (c : control)
| timer_fires (cb : timeout_callback).

Definition interact (Number_toString : Js.number -> string) (s : State)
  (ev : ui_event) : prog (State * (thrown + unit)) :=
  match ev with
  | timer_fires cb => set_state (fire cb) s
  | on_row row c =>
      match render s, nth_error (measurements s) row with
      | table_view, Some m =>
          if shown s m c then handler Number_toString s m c s
          else Ret (s, inr tt)
      | _, _ => Ret (s, inr tt)
      end
  end.

(** A run of events against a backend: the state and the backend at the
    end, and every call made on the way. *)
Fixpoint session (b : backend) (Number_toString : Js.number -> string)
  (evs : list ui_event) (s : State) (w : world b)
  : State * world b * list event :=
  match evs with
  | [] => (s, w, [])
  | ev :: rest =>
      let '(r, w1, calls1) := run b (interact Number_toString s ev) w in
      let '(s2, w2, calls2) := session b Number_toString rest (fst r) w1 in
      (s2, w2, (calls1 ++ calls2)%list)
  end.

Definition is_delete_click (ev : ui_event) : bool :=
  match ev with on_row _ Delete => true | _ => false end.

Definition is_delete_call (e : event) : bool :=
  match e with Event (delete _ _) _ => true | _ => false end.

End ListView.

(* ===================================================================== *)
(** ** The calls of the control plan form and of the parameter loaders *)
(* ===================================================================== *)

Module Catalog.
Import Api.

(** The object literal inserted by the control plan form. *)
Record NewQualityParameter := {
  new_name : string;
  new_unit : string;
  new_min_value : option Js.number;
  new_max_value : option Js.number;
  new_description : string;
}.

(** [{ data, error }] of a select on quality_parameters. *)
Record parameters_result (Row : Type) := {
  rows : option (list Row);
  failure : option thrown;
}.
Arguments rows {Row} _.
Arguments failure {Row} _.

(** The calls on quality_parameters, indexed by what they answer:
    [.insert([...])], [.select('*')], [.select('id, name')], and
    [console.error(label, error)]. *)
Inductive call : Type -> Type :=
| insert_parameters (new : list NewQualityParameter) : call (option thrown)
| select_all : call (parameters_result MeasurementForm.QualityParameter)
| select_id_name : call (parameters_result (string * string))
| console_error (label : string) (err : thrown) : call unit.

Definition is_network {X} (c : call X) : bool :=
  match c with console_error _ _ => false | _ => true end.

Inductive prog (A : Type) : Type :=
| Ret (a : A)
| Do {X : Type} (c : call X) (k : X -> prog A).
Arguments Ret {A} a.
Arguments Do {A X} c k.

Fixpoint prog_bind {A B} (p : prog A) (f : A -> prog B) : prog B :=
  match p with
  | Ret a => f a
  | Do c k => Do c (fun x => prog_bind (k x) f)
  end.

Definition M (S A : Type) : Type := S -> prog (S * (thrown + A)).

Definition ret {S A} (a : A) : M S A := fun s => Ret (s, inr a).

Definition bind {S A B} (m : M S A) (f : A -> M S B) : M S B :=
  fun s => prog_bind (m s) (fun r =>
    match r with
    | (s', inr a) => f a s'
    | (s', inl e) => Ret (s', inl e)
    end).

Definition throw {S A} (e : thrown) : M S A := fun s => Ret (s, inl e).

Definition await {S X} (c : call X) : M S X :=
  fun s => Do c (fun x => Ret (s, inr x)).

Definition set_state {S} (f : S -> S) : M S unit := fun s => Ret (f s, inr tt).

Definition try_catch {S A} (body : M S A) (handler : thrown -> M S A) : M S A :=
  fun s => prog_bind (body s) (fun r =>
    match r with
    | (s', inl e) => handler e s'
    | ok => Ret ok
    end).

Definition try_finally {S A} (body : M S A) (fin : M S unit) : M S A :=
  fun s => prog_bind (body s) (fun r =>
    prog_bind (fin (fst r)) (fun r' =>
      match r' with
      | (s'', inl e) => Ret (s'', inl e)
      | (s'', inr _) => Ret (s'', snd r)
      end)).

Module Notations.
  Notation "x <- m ;; k" := (bind m (fun x => k))
    (at level 100, m at next level, right associativity).
  Notation "m ;; k" := (bind m (fun _ => k))
    (at level 100, right associativity).
End Notations.

Record backend := {
  world : Type;
  respond : forall X, call X -> world -> X * world;
}.

Inductive event : Type :=
| Event {X : Type} (c : call X) (x : X).

Fixpoint run (b : backend) {A} (p : prog A) (w : world b)
  : A * world b * list event :=
  match p with
  | Ret a => (a, w, [])
  | Do c k =>
      let '(x, w') := respond b _ c w in
      let '(a, w'', tr) := run b (k x) w' in
      (a, w'', Event c x :: tr)
  end.

End Catalog.

(* ===================================================================== *)
(** ** src/components/ControlPlanForm.tsx *)
(* ===================================================================== *)

Module ControlPlanForm.
Import Catalog Catalog.Notations.

Record State := {
  name : string;
  unit_ : string;
  minValue : string;
  maxValue : string;
  description : string;
  loading : bool;
  error : option string;
  success : bool;
}.

Definition setName (v : string) (s : State) : State :=
  {| name := v; unit_ := unit_ s; minValue := minValue s;
     maxValue := maxValue s; description := description s;
     loading := loading s; error := error s; success := success s |}.

Definition setUnit (v : string) (s : State) : State :=
  {| name := name s; unit_ := v; minValue := minValue s;
     maxValue := maxValue s; description := description s;
     loading := loading s; error := error s; success := success s |}.

Definition setMinValue (v : string) (s : State) : State :=
  {| name := name s; unit_ := unit_ s; minValue := v;
     maxValue := maxValue s; description := description s;
     loading := loading s; error := error s; success := success s |}.

Definition setMaxValue (v : string) (s : State) : State :=
  {| name := name s; unit_ := unit_ s; minValue := minValue s;
     maxValue := v; description := description s;
     loading := loading s; error := error s; success := success s |}.

Definition setDescription (v : string) (s : State) : State :=
  {| name := name s; unit_ := unit_ s; minValue := minValue s;
     maxValue := maxValue s; description := v;
     loading := loading s; error := error s; success := success s |}.

Definition setLoading (v : bool) (s : State) : State :=
  {| name := name s; unit_ := unit_ s; minValue := minValue s;
     maxValue := maxValue s; description := description s;
     loading := v; error := error s; success := success s |}.

Definition setError (v : option string) (s : State) : State :=
  {| name := name s; unit_ := unit_ s; minValue := minValue s;
     maxValue := maxValue s; description := description s;
     loading := loading s; error := v; success := success s |}.

Definition setSuccess (v : bool) (s : State) : State :=
  {| name := name s; unit_ := unit_ s; minValue := minValue s;
     maxValue := maxValue s; description := description s;
     loading := loading s; error := error s; success := v |}.

(** [text ? parseFloat(text) : null] *)
Definition limit (text : string) : option Js.number :=
  if MeasurementList.truthy text then Some (Js.parseFloat text) else None.

(** The row built by the object literal of [handleSubmit], lines 22-28. *)
Definition inserted_row (render : State) : NewQualityParameter :=
  {| new_name := name render;
     new_unit := unit_ render;
     new_min_value := limit (minValue render);
     new_max_value := limit (maxValue render);
     new_description := description render |}.

(** [handleSubmit], lines 14-43. *)
Definition handleSubmit (render : State) : M State unit :=
  set_state (setLoading true) ;;
  set_state (setError None) ;;
  set_state (setSuccess false) ;;
  try_finally
    (try_catch
       (error <- await (insert_parameters [inserted_row render]) ;;
        match error with
        | Some error => throw error
        | None =>
            set_state (setSuccess true) ;;
            set_state (setName "") ;;
            set_state (setUnit "") ;;
            set_state (setMinValue "") ;;
            set_state (setMaxValue "") ;;
            set_state (setDescription "")
        end)
       (fun err => set_state (setError (Some (Api.error_text err)))))
    (set_state (setLoading false)).

End ControlPlanForm.

(* ===================================================================== *)
(** ** loadParameters of the measurement form and of the measurement list *)
(* ===================================================================== *)

Module Parameters.
Import Catalog Catalog.Notations.

(** MeasurementForm.tsx, [loadParameters]. *)
Definition form_loadParameters : M MeasurementForm.State unit :=
  r <- await select_all ;;
  match failure r with
  | Some error => await (console_error "Error loading parameters:" error)
  | None =>
      set_state (fun s =>
        {| MeasurementForm.parameters := default [] (rows r);
           MeasurementForm.selectedParameter := MeasurementForm.selectedParameter s;
           MeasurementForm.value := MeasurementForm.value s;
           MeasurementForm.loading := MeasurementForm.loading s;
           MeasurementForm.error := MeasurementForm.error s;
           MeasurementForm.success := MeasurementForm.success s |})
  end.

(** MeasurementList.tsx, [loadParameters], lines 48-59. *)
Definition list_loadParameters : M MeasurementList.State unit :=
  r <- await select_id_name ;;
  match failure r with
  | Some error => await (console_error "Error loading parameters:" error)
  | None =>
      set_state (fun s =>
        {| MeasurementList.measurements := MeasurementList.measurements s;
           MeasurementList.loading := MeasurementList.loading s;
           MeasurementList.error := MeasurementList.error s;
           MeasurementList.editingId := MeasurementList.editingId s;
           MeasurementList.editValue := MeasurementList.editValue s;
           MeasurementList.updateSuccess := MeasurementList.updateSuccess s;
           MeasurementList.deletingId := MeasurementList.deletingId s;
           MeasurementList.parameters := default [] (rows r);
           MeasurementList.filters := MeasurementList.filters s |})
  end.

End Parameters.

(* ===================================================================== *)
(** ** App.tsx: the gate of the private routes, and the routes *)
(* ===================================================================== *)

Module Shell.
Import Api Api.Notations.

(** The [session] handed to the auth listener; [session.user] is all the
    shell reads of it. *)
Record Session := { session_user : User }.

(** [PrivateRoute]'s [useState] cells, as first rendered. *)
Record Gate := { loading : bool; authenticated : bool }.

Definition mounted : Gate := {| loading := true; authenticated := false |}.

Definition setAuthenticated (v : bool) (g : Gate) : Gate :=
  {| loading := loading g; authenticated := v |}.

Definition setLoading (v : bool) (g : Gate) : Gate :=
  {| loading := v; authenticated := authenticated g |}.

(** [!!x] of a value that is an object or null. *)
Definition truthy {A} (x : option A) : bool :=
  match x with Some _ => true | None => false end.

(** [checkUser], lines 25-29. *)
Definition checkUser : M Gate unit :=
  user <- await auth_getUser ;;
  set_state (setAuthenticated (truthy user)) ;;
  set_state (setLoading false).

(** The listener given to [onAuthStateChange], lines 17-20. *)
Definition on_auth_state_change (session : option Session) : M Gate unit :=
  set_state (setAuthenticated (truthy session)) ;;
  set_state (setLoading false).

(** What the gate renders, lines 31-39. *)
Inductive gate_view := gate_loading | to_login | children.

Definition render (g : Gate) : gate_view :=
  if loading g then gate_loading
  else if negb (authenticated g) then to_login
  else children.

(** What reaches a mounted gate: the answer to [checkUser]'s lookup, or a
    notification of the auth listener. *)
Inductive notice :=
| user_checked (user : option User)
| auth_changed (session : option Session).

Definition carries_user (n : notice) : bool :=
  match n with
  | user_checked user => truthy user
  | auth_changed session => truthy session
  end.

Definition receive (g : Gate) (n : notice) : Gate :=
  setLoading false (setAuthenticated (carries_user n) g).

(** A gate on the screen, or one that has rendered
    [<Navigate to="/login" />]: the location changed, the gate was
    unmounted and the cleanup of its effect unsubscribed the listener
    (line 22), so that no notice reaches it any more. *)
Inductive placed := on_screen (g : Gate) | gone_to_login.

Definition deliver (p : placed) (n : notice) : placed :=
  match p with
  | gone_to_login => gone_to_login
  | on_screen g =>
      match render (receive g n) with
      | to_login => gone_to_login
      | _ => on_screen (receive g n)
      end
  end.

(** The pages behind the routes, and the route table of [App],
    lines 120-172. *)
Inductive page :=
| Dashboard | CompanyList | ControlPlanForm | MeasurementForm | MeasurementList.

Inductive element :=
| LoginForm
| PrivateRoute (p : page)
| Navigate (to : string).

Definition routes : list (string * element) :=
  [("/login", LoginForm);
   ("/dashboard", PrivateRoute Dashboard);
   ("/companies", PrivateRoute CompanyList);
   ("/control-plan", PrivateRoute ControlPlanForm);
   ("/measurements/new", PrivateRoute MeasurementForm);
   ("/measurements", PrivateRoute MeasurementList);
   ("/", Navigate "/dashboard")].

(** A route's path matches a location without regard to the case of
    letters and to slashes at the end. *)
Definition lower (c : ascii) : ascii :=
  let n := N_of_ascii c in
  if ((65 <=? n) && (n <=? 90))%N then ascii_of_N (n + 32) else c.

Fixpoint lowercase (s : string) : string :=
  match s with
  | EmptyString => EmptyString
  | String c s' => String (lower c) (lowercase s')
  end.

Fixpoint without_trailing_slashes (s : string) : string :=
  match s with
  | EmptyString => EmptyString
  | String c s' =>
      match without_trailing_slashes s' with
      | EmptyString =>
          if (N_of_ascii c =? 47)%N then EmptyString else String c EmptyString
      | kept => String c kept
      end
  end.

Definition matches (pattern path : string) : bool :=
  String.eqb (without_trailing_slashes (lowercase pattern))
             (without_trailing_slashes (lowercase path)).

Definition route (path : string) : option element :=
  snd <$> List.find (fun r => matches (fst r) path) routes.

(** Where a visit of [path] ends and what is on the screen there, when
    every gate on the way renders as [g] does; [hops] bounds the
    redirects followed. *)
Inductive screen := login_screen | page_screen (p : page) | loading_screen | blank.

Fixpoint visit (hops : nat) (g : Gate) (path : string) : string * screen :=
  match route path with
  | None => (path, blank)
  | Some LoginForm => (path, login_screen)
  | Some (PrivateRoute p) =>
      match render g with
      | gate_loading => (path, loading_screen)
      | children => (path, page_screen p)
      | to_login =>
          match hops with
          | O => (path, blank)
          | S hops' => visit hops' g "/login"
          end
      end
  | Some (Navigate to) =>
      match hops with
      | O => (path, blank)
      | S hops' => visit hops' g to
      end
  end.

End Shell.

(* ===================================================================== *)
(** ** The order of binary64 values by exponent and mantissa *)
(* ===================================================================== *)

Module Order.

(** Two positive finite values with mantissas [m1], [m2] and exponents
    [e1], [e2], as the comparison of binary64 reads them: by exponent
    first, then by mantissa. *)
Definition lex (e1 : Z) (m1 : positive) (e2 : Z) (m2 : positive) : comparison :=
  match (e1 ?= e2)%Z with
  | Eq => Pos.compare_cont Eq m1 m2
  | Lt => Lt
  | Gt => Gt
  end.

End Order.

(* ===================================================================== *)
(** ** More concrete inputs *)
(* ===================================================================== *)

Module Samples.

(** A measurement of Bob's, and a history in which only Bob acts on a
    table that holds a row of Alice's. *)
Definition bobs_row : Schema.measurement :=
  {| Schema.m_id := "m2"; Schema.supplier_id := "b2";
     Schema.parameter_id := "p1"; Schema.value := 12%Q;
     Schema.measured_at := 1%Z; Schema.m_created_at := 1%Z |}.

Definition bobs_history : list (Schema.actor * Schema.action) :=
  [(Schema.Authenticated "b2", Schema.act_insert bobs_row);
   (Schema.Authenticated "b2",
    Schema.act_select
      (List.filter (fun r => Schema.visible (Schema.Authenticated "b2") r && true)
         [Examples.alices_row; bobs_row]))].

(** The list of [Examples.list_editing] with the buffer holding the value
    the edited row already has, and the same list after an error. *)
Definition list_saving : MeasurementList.State :=
  MeasurementList.setEditValue "9.99" Examples.list_editing.

Definition list_failed : MeasurementList.State :=
  MeasurementList.setError (Some "permission denied") Examples.list_editing.

(** A stand-in for [Number.prototype.toString] that prints no digits. *)
Definition prints_NaN (x : Js.number) : string := "NaN".

Definition presses : list ListView.ui_event :=
  [ListView.on_row 0 ListView.Confirm;
   ListView.on_row 1 ListView.Save;
   ListView.on_row 0 ListView.Edit;
   ListView.timer_fires Api.reset_edit_state;
   ListView.on_row 2 ListView.Cancel_delete].

(** A reading of a parameter whose limits are the wrong way round. *)
Definition inverted : Api.Measurement :=
  {| Api.id := "m9"; Api.value := 15%float;
     Api.measured_at := "2025-02-22T10:03:23+00:00";
     Api.quality_parameters :=
       {| Api.qp_name := "Diameter"; Api.qp_unit := "mm";
          Api.min_value := Some 20%float; Api.max_value := Some 10%float |};
     Api.suppliers := {| Api.s_name := "Test Supplier" |} |}.



End Samples.

(* ===================================================================== *)
(** ** Numbers *)
(* ===================================================================== *)

Section Numbers.

Lemma SFcompare_swap (x y : spec_float) :
  SFcompare y x = option_map CompOpp (SFcompare x y).
Proof.
  destruct x as [sx|sx| |sx mx ex], y as [sy|sy| |sy my ey]; simpl;
    try reflexivity;
    try (destruct sx; reflexivity);
    try (destruct sy; reflexivity);
    try (destruct sx, sy; reflexivity).
  change PosDef.Pos.compare_cont with Pos.compare_cont.
  assert (H : Pos.compare_cont Eq my mx = CompOpp (Pos.compare_cont Eq mx my))
    by (symmetry; apply (Pos.compare_cont_antisym mx my Eq)).
  rewrite H, (Z.compare_antisym ex ey).
  destruct (ex ?= ey)%Z, (Pos.compare_cont Eq mx my), sx, sy; reflexivity.
Qed.

(** JS [a <= b] is the binary64 comparison. *)
Lemma le_leb (a b : Js.number) : Js.le a b = PrimFloat.leb a b.
Proof.
  unfold Js.le, Js.IsLessThan.
  rewrite FloatAxioms.leb_spec, FloatAxioms.compare_spec.
  unfold SFleb. rewrite (SFcompare_swap (Prim2SF a) (Prim2SF b)).
  destruct (SFcompare (Prim2SF a) (Prim2SF b)) as [[]|]; reflexivity.
Qed.

(** JS [a >= b] is the binary64 comparison of [b] with [a]. *)
Lemma ge_leb (a b : Js.number) : Js.ge a b = PrimFloat.leb b a.
Proof.
  unfold Js.ge, Js.IsLessThan.
  rewrite FloatAxioms.leb_spec, FloatAxioms.compare_spec.
  unfold SFleb. rewrite (SFcompare_swap (Prim2SF a) (Prim2SF b)).
  destruct (SFcompare (Prim2SF a) (Prim2SF b)) as [[]|]; reflexivity.
Qed.

(** [parseFloat] reads the longest numeric prefix: nothing to read gives
    NaN, trailing text is ignored. *)
Example parseFloat_samples :
  Js.isNaN (Js.parseFloat "") = true
  /\ Js.isNaN (Js.parseFloat "abc") = true
  /\ Js.isNaN (Js.parseFloat "-") = true
  /\ Js.isNaN (Js.parseFloat ".") = true
  /\ PrimFloat.eqb (Js.parseFloat "12abc") 12%float = true
  /\ PrimFloat.eqb (Js.parseFloat "  9.99") 9.99%float = true
  /\ PrimFloat.eqb (Js.parseFloat "20.01") 20.01%float = true
  /\ PrimFloat.eqb (Js.parseFloat "-1.5e3") (-1500)%float = true
  /\ PrimFloat.eqb (Js.parseFloat ".5") 0.5%float = true
  /\ PrimFloat.eqb (Js.parseFloat "Infinity") PrimFloat.infinity = true.
Proof. repeat split; vm_compute; reflexivity. Qed.

Lemma parseFloat_no_literal (s : string) :
  Js.decimal_literal (Js.trim_start s) = None ->
  Js.isNaN (Js.parseFloat s) = true.
Proof. intros H. unfold Js.parseFloat. rewrite H. reflexivity. Qed.

End Numbers.

(* ===================================================================== *)
(** ** Within limits: the status filter and the status badge *)
(* ===================================================================== *)

Section WithinLimits.
Import Api MeasurementList.

Lemma null_or_true (limit : option Js.number) (test : Js.number -> bool) :
  null_or limit test = true
  <-> limit = None \/ exists l, limit = Some l /\ test l = true.
Proof.
  destruct limit as [l|]; simpl; split.
  - intros H. right. exists l. now split.
  - intros [H|(l' & H & Ht)]; [discriminate | now inversion H; subst].
  - now left.
  - reflexivity.
Qed.

Lemma isWithinLimits_filter_row (m : Measurement) :
  isWithinLimits_filter m = isWithinLimits_row m.
Proof. reflexivity. Qed.

Lemma isWithinLimits_row_spec (m : Measurement) :
  isWithinLimits_row m = true <-> Spec.within_limits_of m.
Proof.
  unfold isWithinLimits_row, Spec.within_limits_of, Spec.within_limits,
    Spec.at_most.
  rewrite andb_true_iff, !null_or_true.
  split; intros [H1 H2]; split.
  - destruct H1 as [H1|(l & H1 & Hl)]; [now left|].
    right. exists l. now rewrite <- ge_leb.
  - destruct H2 as [H2|(l & H2 & Hl)]; [now left|].
    right. exists l. now rewrite <- le_leb.
  - destruct H1 as [H1|(l & H1 & Hl)]; [now left|].
    right. exists l. now rewrite ge_leb.
  - destruct H2 as [H2|(l & H2 & Hl)]; [now left|].
    right. exists l. now rewrite le_leb.
Qed.

Lemma isWithinLimits_row_false (m : Measurement) :
  isWithinLimits_row m = false <-> ~ Spec.within_limits_of m.
Proof.
  rewrite <- isWithinLimits_row_spec.
  destruct (isWithinLimits_row m); split; intros H; congruence.
Qed.

(** C2.  Both computations of [isWithinLimits] in the measurement list, the
    one of the status filter and the one of the rendered row (and so the
    badge), hold exactly when (min_value is null or value >= min_value) and
    (max_value is null or value <= max_value).  The 'within' filter keeps
    exactly the fetched rows within limits, the 'outside' filter exactly
    those that are not, 'all' keeps every row.  With limits 10 and 20 the
    values 10 and 20 are within limits and 9.99 and 20.01 are not; with
    min_value null the status is the comparison with max_value alone. *)
Theorem within_limits_classification :
  (forall m, isWithinLimits_filter m = true <-> Spec.within_limits_of m)
  /\ (forall m, isWithinLimits_row m = true <-> Spec.within_limits_of m)
  /\ (forall m, badge m = "Within Limits" <-> Spec.within_limits_of m)
  /\ (forall s e p data m,
        In m (status_filter
                {| startDate := s; endDate := e; parameter := p;
                   status := within |} (Some data))
        <-> In m data /\ Spec.within_limits_of m)
  /\ (forall s e p data m,
        In m (status_filter
                {| startDate := s; endDate := e; parameter := p;
                   status := outside |} (Some data))
        <-> In m data /\ ~ Spec.within_limits_of m)
  /\ (forall s e p data,
        status_filter
          {| startDate := s; endDate := e; parameter := p; status := all |}
          (Some data) = data)
  /\ (forall i t n u s,
        let reading v :=
          {| id := i; value := v; measured_at := t;
             quality_parameters :=
               {| qp_name := n; qp_unit := u;
                  min_value := Some 10%float; max_value := Some 20%float |};
             suppliers := s |} in
        isWithinLimits_row (reading 10%float) = true
        /\ isWithinLimits_row (reading 20%float) = true
        /\ isWithinLimits_row (reading 9.99%float) = false
        /\ isWithinLimits_row (reading 20.01%float) = false)
  /\ (forall i t n u s v hi,
        isWithinLimits_row
          {| id := i; value := v; measured_at := t;
             quality_parameters :=
               {| qp_name := n; qp_unit := u;
                  min_value := None; max_value := Some hi |};
             suppliers := s |} = PrimFloat.leb v hi).
Proof.
  split.
  { intros m. rewrite isWithinLimits_filter_row.
    apply isWithinLimits_row_spec. }
  split; [exact isWithinLimits_row_spec|].
  split.
  { intros m. rewrite <- isWithinLimits_row_spec. unfold badge.
    destruct (isWithinLimits_row m); split; intros H;
      try reflexivity; discriminate. }
  split.
  { intros s e p data m. unfold status_filter; simpl.
    rewrite filter_In. unfold status_callback; simpl.
    rewrite isWithinLimits_filter_row, isWithinLimits_row_spec.
    reflexivity. }
  split.
  { intros s e p data m. unfold status_filter; simpl.
    rewrite filter_In. unfold status_callback; simpl.
    rewrite isWithinLimits_filter_row, negb_true_iff,
      isWithinLimits_row_false.
    reflexivity. }
  split; [reflexivity|].
  split.
  { intros i t n u s reading. subst reading.
    unfold isWithinLimits_row; simpl.
    repeat split; vm_compute; reflexivity. }
  intros i t n u s v hi. unfold isWithinLimits_row; simpl. apply le_leb.
Qed.

End WithinLimits.

(* ===================================================================== *)
(** ** The measurement form *)
(* ===================================================================== *)

Section MeasurementFormProperties.
Import Api MeasurementForm.

Variable b : backend.

(** Unfolds a handler run against [b] down to the answers of [b]. *)
Ltac run_handler :=
  cbv [run handleSubmit submit bind try_finally try_catch await set_state
       throw ret prog_bind fst snd].

(** C6, as the code has it.  [handleSubmit] first asks for the signed-in
    user.  Without one it makes no further call, shows 'No authenticated
    user' and leaves the two inputs as they were.  With one it reads the
    clock and issues exactly one insert, of one row whose supplier_id is
    the user's id and whose measured_at is that time; when the insert
    answers no error both inputs are cleared and the confirmation is
    shown; when it answers an error, the text shown is the error's message
    if the error is an Error instance and the fixed text 'An error
    occurred' if it is not, and the inputs are left as they were. *)
Theorem handleSubmit_behaviour (w : world b) (s : State) :
  match respond b _ auth_getUser w with
  | (None, w1) =>
      run b (handleSubmit s s) w
      = (({| parameters := parameters s;
             selectedParameter := selectedParameter s;
             value := value s;
             loading := false;
             error := Some "No authenticated user";
             success := false |}, inr tt), w1,
         [Event auth_getUser None])
  | (Some user, w1) =>
      let '(now, w2) := respond b _ Date_toISOString w1 in
      let row :=
        {| new_parameter_id := selectedParameter s;
           new_value := Js.parseFloat (value s);
           new_measured_at := now;
           new_supplier_id := user_id user |} in
      let '(err, w3) := respond b _ (insert tbl_measurements [row]) w2 in
      run b (handleSubmit s s) w
      = ((match err with
          | None =>
              {| parameters := parameters s;
                 selectedParameter := "";
                 value := "";
                 loading := false;
                 error := None;
                 success := true |}
          | Some e =>
              {| parameters := parameters s;
                 selectedParameter := selectedParameter s;
                 value := value s;
                 loading := false;
                 error := Some (if is_Error e then message e
                                else "An error occurred");
                 success := false |}
          end, inr tt), w3,
         [Event auth_getUser (Some user); Event Date_toISOString now;
          Event (insert tbl_measurements [row]) err])
  end.
Proof.
  run_handler.
  destruct (respond b _ auth_getUser w) as [[user|] w1]; [|reflexivity].
  destruct (respond b _ Date_toISOString w1) as [now w2].
  change {| new_parameter_id := selectedParameter s;
            new_value := Js.parseFloat (value s);
            new_measured_at := now;
            new_supplier_id := user_id user |}
    with (inserted_row s user now).
  destruct (respond b _ (insert tbl_measurements [inserted_row s user now]) w2)
    as [[e|] w3]; reflexivity.
Qed.

End MeasurementFormProperties.

(* ===================================================================== *)
(** ** The measurement list *)
(* ===================================================================== *)

Section MeasurementListProperties.
Import Api MeasurementList.

Variable b : backend.

Ltac run_list_handler :=
  cbv [run loadMeasurements handleUpdate handleDelete bind try_finally
       try_catch await set_state throw ret prog_bind fst snd].

Lemma truthy_nonempty (s : string) :
  truthy s = if decide (s = "") then false else true.
Proof.
  unfold truthy. destruct (String.eqb_spec s ""), (decide (s = ""));
    simpl; congruence.
Qed.

(** The save handler stops at a buffer that parses to NaN: no call is
    made, the message is set, nothing else changes. *)
Lemma handleUpdate_rejects_NaN (w : world b) (s : State) (m : Measurement) :
  Js.isNaN (Js.parseFloat (editValue s)) = true ->
  run b (handleUpdate s m s) w
  = ((setError (Some "Please enter a valid number") s, inr tt), w, []).
Proof. intros H. run_list_handler. rewrite H. reflexivity. Qed.

Lemma replace_value_rows (m : Measurement) (v : Js.number) (rows : list Measurement) :
  Forall2 (fun old new =>
             (id old = id m /\ new = with_value old v)
             \/ (id old <> id m /\ new = old))
          rows (map (replace_value m v) rows).
Proof.
  induction rows as [|row rows IH]; simpl; constructor; [|exact IH].
  unfold replace_value. destruct (String.eqb_spec (id row) (id m)); auto.
Qed.

(** C7.  When the edit buffer parses to NaN, [handleUpdate] makes no call
    at all, puts the validation message 'Please enter a valid number' in
    the error cell and leaves the measurements, and every other cell, as
    they were.  Otherwise it issues one update of [value] restricted to
    the row's id; when that answers no error, the local list is the old
    one with the value replaced in the rows of that id and every other row
    as it was (and the edit state is reset 1500 ms later); when it answers
    an error, the error's text is put in the error cell and the list is as
    it was. *)
Theorem handleUpdate_behaviour (w : world b) (s : State) (m : Measurement) :
  let newValue := Js.parseFloat (editValue s) in
  (if Js.isNaN newValue
   then run b (handleUpdate s m s) w
        = (({| measurements := measurements s; loading := loading s;
               error := Some "Please enter a valid number";
               editingId := editingId s; editValue := editValue s;
               updateSuccess := updateSuccess s;
               deletingId := deletingId s; parameters := parameters s;
               filters := filters s |}, inr tt), w, [])
   else
     let request := update tbl_measurements newValue [eq "id" (id m)] in
     match respond b _ request w with
     | (Some e, w1) =>
         run b (handleUpdate s m s) w
         = (({| measurements := measurements s; loading := loading s;
                error := Some (if is_Error e then message e
                               else "An error occurred");
                editingId := editingId s; editValue := editValue s;
                updateSuccess := updateSuccess s;
                deletingId := deletingId s; parameters := parameters s;
                filters := filters s |}, inr tt), w1,
            [Event request (Some e)])
     | (None, w1) =>
         let timer := setTimeout reset_edit_state 1500 in
         let '(u, w2) := respond b _ timer w1 in
         run b (handleUpdate s m s) w
         = (({| measurements :=
                  map (fun row =>
                         if String.eqb (id row) (id m)
                         then {| id := id row; value := newValue;
                                 measured_at := measured_at row;
                                 quality_parameters := quality_parameters row;
                                 suppliers := suppliers row |}
                         else row) (measurements s);
                loading := loading s; error := error s;
                editingId := editingId s; editValue := editValue s;
                updateSuccess := true;
                deletingId := deletingId s; parameters := parameters s;
                filters := filters s |}, inr tt), w2,
            [Event request None; Event timer u])
     end)
  /\ Forall2 (fun old new =>
                (id old = id m
                 /\ new = {| id := id old; value := newValue;
                             measured_at := measured_at old;
                             quality_parameters := quality_parameters old;
                             suppliers := suppliers old |})
                \/ (id old <> id m /\ new = old))
             (measurements s)
             (map (fun row =>
                     if String.eqb (id row) (id m)
                     then {| id := id row; value := newValue;
                             measured_at := measured_at row;
                             quality_parameters := quality_parameters row;
                             suppliers := suppliers row |}
                     else row) (measurements s)).
Proof.
  intros newValue. split.
  - destruct (Js.isNaN newValue) eqn:HNaN.
    + now rewrite handleUpdate_rejects_NaN.
    + run_list_handler. fold newValue. rewrite HNaN.
      destruct (respond b _ (update tbl_measurements newValue [eq "id" (id m)]) w)
        as [[e|] w1]; [reflexivity|].
      destruct (respond b _ (setTimeout reset_edit_state 1500) w1) as [[] w2].
      reflexivity.
  - apply (replace_value_rows m newValue).
Qed.

(** The timer of a successful save closes the editor and touches nothing
    else. *)
Remark fire_reset_edit_state (s : State) :
  fire reset_edit_state s
  = {| measurements := measurements s; loading := loading s;
       error := error s; editingId := None; editValue := "";
       updateSuccess := false; deletingId := deletingId s;
       parameters := parameters s; filters := filters s |}.
Proof. reflexivity. Qed.

Lemma filter_other_than_split (id' : string) (before after : list Measurement)
  (row : Measurement) :
  id row = id' ->
  (forall r, In r before \/ In r after -> id r <> id') ->
  List.filter (other_than id') (before ++ row :: after) = (before ++ after)%list.
Proof.
  intros Hrow Hothers.
  assert (Hkeep : forall l, (forall r, In r l -> id r <> id') ->
                            List.filter (other_than id') l = l).
  { induction l as [|r l IH]; simpl; intros Hl; [reflexivity|].
    unfold other_than at 1.
    destruct (String.eqb_spec (id r) id') as [E|_]; simpl.
    - exfalso. apply (Hl r); auto.
    - f_equal. apply IH. intros r' Hr'. apply Hl. now right. }
  rewrite List.filter_app. simpl. unfold other_than at 2.
  rewrite Hrow, String.eqb_refl. simpl.
  rewrite !Hkeep; [reflexivity| |]; intros r Hr; apply Hothers; auto.
Qed.

(** C8.  [handleDelete] issues one delete restricted to the given id.  When
    it answers no error the local list is the prior list without the rows
    of that id (the prior list with exactly that row taken out when one row
    carries the id), no other change of order or content, and no deletion
    is pending any more; when it answers an error, the error's text (its
    message if it is an Error instance, 'An error occurred' if not) is put
    in the error cell, and the list and every other cell are exactly as
    before. *)
Theorem handleDelete_behaviour (w : world b) (s : State) (id' : string) :
  (let request := delete tbl_measurements [eq "id" id'] in
   let '(err, w1) := respond b _ request w in
   run b (handleDelete s id' s) w
   = ((match err with
       | None =>
           {| measurements :=
                List.filter (fun m => negb (String.eqb (id m) id'))
                  (measurements s);
              loading := loading s; error := error s;
              editingId := editingId s; editValue := editValue s;
              updateSuccess := updateSuccess s;
              deletingId := None; parameters := parameters s;
              filters := filters s |}
       | Some e =>
           {| measurements := measurements s; loading := loading s;
              error := Some (if is_Error e then message e
                             else "An error occurred");
              editingId := editingId s; editValue := editValue s;
              updateSuccess := updateSuccess s;
              deletingId := deletingId s; parameters := parameters s;
              filters := filters s |}
       end, inr tt), w1, [Event request err]))
  /\ (forall before row after,
        measurements s = (before ++ row :: after)%list ->
        id row = id' ->
        (forall r, In r before \/ In r after -> id r <> id') ->
        List.filter (fun m => negb (String.eqb (id m) id')) (measurements s)
        = (before ++ after)%list)
  /\ (forall r, In r (List.filter (fun m => negb (String.eqb (id m) id'))
                        (measurements s))
                <-> In r (measurements s) /\ id r <> id').
Proof.
  split; [|split].
  - run_list_handler.
    destruct (respond b _ (delete tbl_measurements [eq "id" id']) w)
      as [[e|] w1]; reflexivity.
  - intros before row after -> Hrow Hothers.
    now apply (filter_other_than_split id').
  - intros r. rewrite filter_In.
    destruct (String.eqb_spec (id r) id'); simpl; intuition congruence.
Qed.

(** C9.  [loadMeasurements] asks for the signed-in user and then issues one
    select on measurements whose conditions are, in this order: supplier_id
    equal to the user's id; measured_at >= startDate when startDate is not
    empty; measured_at <= endDate when endDate is not empty; parameter_id
    equal to the parameter filter when it is not empty; ordered by
    measured_at descending.  The status filter is no part of the query: it
    is applied to the rows the select answers. *)
Theorem loadMeasurements_query (w : world b) (s : State) :
  match respond b _ auth_getUser w with
  | (None, w1) =>
      run b (loadMeasurements s s) w
      = ((setLoading false (setError (Some "No authenticated user") s),
          inr tt), w1, [Event auth_getUser None])
  | (Some user, w1) =>
      let f := filters s in
      let q := build_query f user in
      let '(r, w2) := respond b _ (select q) w1 in
      run b (loadMeasurements s s) w
      = ((setLoading false
            match Api.error r with
            | Some e => setError (Some (error_text e)) s
            | None => setMeasurements (status_filter f (data r)) s
            end, inr tt), w2,
         [Event auth_getUser (Some user); Event (select q) r])
      /\ q_from q = tbl_measurements
      /\ q_select q = measurement_columns
      /\ q_order q = [{| order_column := "measured_at"; ascending := false |}]
      /\ q_conds q
         = ([eq "supplier_id" (user_id user)]
            ++ (if decide (startDate f = "") then []
                else [gte "measured_at" (startDate f)])
            ++ (if decide (endDate f = "") then []
                else [lte "measured_at" (endDate f)])
            ++ (if decide (parameter f = "") then []
                else [eq "parameter_id" (parameter f)]))%list
  end.
Proof.
  run_list_handler.
  destruct (respond b _ auth_getUser w) as [[user|] w1]; [|reflexivity].
  destruct (respond b _ (select (build_query (filters s) user)) w1)
    as [r w2].
  split.
  { destruct (Api.error r); reflexivity. }
  unfold build_query. rewrite !truthy_nonempty.
  destruct (decide (startDate (filters s) = "")),
    (decide (endDate (filters s) = "")),
    (decide (parameter (filters s) = "")); repeat split.
Qed.

End MeasurementListProperties.

(* ===================================================================== *)
(** ** Submitting the form: required fields, and what is not checked *)
(* ===================================================================== *)

Section FormSubmission.
Import Api MeasurementForm.

Variable b : backend.

(** C5.  A submission of the form while no quality parameter is selected
    is stopped by the validation of the required select: [handleSubmit] is
    not run, no call is made (neither the user lookup nor the insert), and
    the state stays as it was. *)
Theorem submit_without_parameter (w : world b) (s : State) :
  selectedParameter s = "" ->
  run b (submit s) w = ((s, inr tt), w, []).
Proof.
  intros H. unfold submit, checkValidity, parameter_missing.
  rewrite H. simpl. destruct (loading s); reflexivity.
Qed.

(** The stop is the form's, not the handler's: run on its own with no
    parameter selected, [handleSubmit] asks for the user first like on any
    other input. *)
Remark handleSubmit_checks_no_field (w : world b) (s : State) :
  exists x tr, snd (run b (handleSubmit s s) w) = Event auth_getUser x :: tr.
Proof.
  cbv [run handleSubmit bind try_finally try_catch await set_state throw
       ret prog_bind fst snd].
  destruct (respond b _ auth_getUser w) as [[user|] w1].
  - destruct (respond b _ Date_toISOString w1) as [now w2].
    destruct (respond b _ (insert tbl_measurements [inserted_row s user now]) w2)
      as [[e|] w3]; eexists; eexists; reflexivity.
  - eexists; eexists; reflexivity.
Qed.

(** C10.  Once the user is resolved, [handleSubmit] issues the insert
    whatever the value buffer holds, with [parseFloat] of the buffer as the
    value: NaN when the buffer has no numeric prefix.  Whether the
    submission succeeds is then the backend's answer alone.  The save
    handler of the list, on the same buffer, makes no call when it parses to
    NaN. *)
Theorem handleSubmit_no_numeric_check (w w1 : world b) (s : State) (user : User) :
  respond b _ auth_getUser w = (Some user, w1) ->
  let '(now, w2) := respond b _ Date_toISOString w1 in
  let row := inserted_row s user now in
  let '(err, w3) := respond b _ (insert tbl_measurements [row]) w2 in
  snd (run b (handleSubmit s s) w)
  = [Event auth_getUser (Some user); Event Date_toISOString now;
     Event (insert tbl_measurements [row]) err]
  /\ new_value row = Js.parseFloat (value s)
  /\ (Js.decimal_literal (Js.trim_start (value s)) = None ->
      Js.isNaN (new_value row) = true)
  /\ (success (fst (fst (fst (run b (handleSubmit s s) w)))) = true
      <-> err = None)
  /\ (forall (w' : world b) (l : MeasurementList.State) (m : Measurement),
        MeasurementList.editValue l = value s ->
        Js.isNaN (Js.parseFloat (value s)) = true ->
        snd (run b (MeasurementList.handleUpdate l m l) w') = []).
Proof.
  intros Huser.
  destruct (respond b _ Date_toISOString w1) as [now w2] eqn:Hnow.
  destruct (respond b _ (insert tbl_measurements [inserted_row s user now]) w2)
    as [err w3] eqn:Hins.
  cbv [run handleSubmit bind try_finally try_catch await set_state throw
       ret prog_bind fst snd].
  rewrite Huser, Hnow, Hins.
  split; [destruct err; reflexivity|].
  split; [reflexivity|].
  split.
  { intros Hnone. now apply parseFloat_no_literal. }
  split.
  { destruct err; simpl; split; congruence. }
  intros w' l m Hbuf HNaN.
  rewrite handleUpdate_rejects_NaN; [reflexivity|].
  now rewrite Hbuf.
Qed.

End FormSubmission.

Lemma submit_without_parameter_witness :
  MeasurementForm.selectedParameter Examples.form_without_parameter = ""
  /\ Api.run (Api.scripted Examples.accepting)
       (MeasurementForm.submit Examples.form_without_parameter) 0%nat
     = ((Examples.form_without_parameter, inr tt), 0%nat, []).
Proof.
  split; [reflexivity|].
  apply (submit_without_parameter (Api.scripted Examples.accepting) 0%nat
           Examples.form_without_parameter).
  reflexivity.
Defined.

Lemma handleSubmit_no_numeric_check_witness :
  Api.respond (Api.scripted Examples.rejecting) _ Api.auth_getUser 0%nat
  = (Some Examples.alice, 1%nat)
  /\ exists row err,
       snd (Api.run (Api.scripted Examples.rejecting)
              (MeasurementForm.handleSubmit Examples.form_without_number
                 Examples.form_without_number) 0%nat)
       = [Api.Event Api.auth_getUser (Some Examples.alice);
          Api.Event Api.Date_toISOString "2025-02-24T10:16:36.000Z";
          Api.Event (Api.insert Api.tbl_measurements [row]) err]
       /\ Js.isNaN (Api.new_value row) = true.
Proof.
  split; [reflexivity|].
  pose proof (handleSubmit_no_numeric_check (Api.scripted Examples.rejecting)
                0%nat 1%nat Examples.form_without_number Examples.alice
                eq_refl) as H.
  cbn [Api.respond Api.scripted Api.answer Api.the_time Api.mutation_error
       Examples.rejecting] in H.
  destruct H as (Htrace & _ & HNaN & _).
  eexists. eexists. split; [exact Htrace|].
  apply HNaN. reflexivity.
Defined.

(* ===================================================================== *)
(** ** Row-level security on measurements *)
(* ===================================================================== *)

Section MeasurementPolicies.
Import Schema.

(** The policies that bear on each command of a signed-in user on
    measurements. *)
Lemma applicable_select (uid : uuid) :
  applicable Api.tbl_measurements SELECT (Authenticated uid)
  = [read_own_measurements].
Proof. reflexivity. Qed.

Lemma applicable_insert (uid : uuid) :
  applicable Api.tbl_measurements INSERT (Authenticated uid)
  = [insert_own_measurements].
Proof. reflexivity. Qed.

Lemma applicable_update (uid : uuid) :
  applicable Api.tbl_measurements UPDATE (Authenticated uid)
  = [update_own_measurements].
Proof. reflexivity. Qed.

Lemma applicable_delete (a : actor) :
  applicable Api.tbl_measurements DELETE a = [].
Proof. destruct a; reflexivity. Qed.

Lemma own_row (uid : uuid) (r : measurement) :
  passes (Authenticated uid) (measurement_view r)
    (sql_eq (column_text c_supplier_id) auth_uid_text) = true
  <-> supplier_id r = uid.
Proof.
  unfold passes; simpl.
  destruct (String.eqb_spec (supplier_id r) uid); split; congruence.
Qed.

Lemma visible_own (uid : uuid) (r : measurement) :
  visible (Authenticated uid) r = true <-> supplier_id r = uid.
Proof.
  unfold visible, using_ok. rewrite applicable_select. simpl.
  rewrite orb_false_r. apply own_row.
Qed.

Lemma insert_check_own (uid : uuid) (r : measurement) :
  with_check_ok Api.tbl_measurements INSERT (Authenticated uid)
    (measurement_view r) = true
  <-> supplier_id r = uid.
Proof.
  unfold with_check_ok. rewrite applicable_insert. simpl.
  rewrite orb_false_r. apply own_row.
Qed.

Lemma update_using_own (uid : uuid) (r : measurement) :
  using_ok Api.tbl_measurements UPDATE (Authenticated uid)
    (measurement_view r) = true
  <-> supplier_id r = uid.
Proof.
  unfold using_ok. rewrite applicable_update. simpl.
  rewrite orb_false_r. apply own_row.
Qed.

Lemma update_check_own (uid : uuid) (r : measurement) :
  with_check_ok Api.tbl_measurements UPDATE (Authenticated uid)
    (measurement_view r) = true
  <-> supplier_id r = uid.
Proof.
  unfold with_check_ok. rewrite applicable_update. simpl.
  rewrite orb_false_r. apply own_row.
Qed.

Lemma delete_never_in_reach (a : actor) (r : measurement) :
  using_ok Api.tbl_measurements DELETE a (measurement_view r) = false.
Proof. unfold using_ok. rewrite applicable_delete. reflexivity. Qed.

Lemma owned_by_others_app uid l1 l2 :
  owned_by_others uid (l1 ++ l2)
  = (owned_by_others uid l1 ++ owned_by_others uid l2)%list.
Proof. apply List.filter_app. Qed.

Lemma owned_by_others_own uid r rows :
  supplier_id r = uid ->
  owned_by_others uid (r :: rows) = owned_by_others uid rows.
Proof.
  intros H. unfold owned_by_others; simpl. now rewrite H, String.eqb_refl.
Qed.

(** C1.  For a signed-in user [uid], the policies of measurements let a
    row be selected, inserted, or updated (as the row before and as the row
    after) exactly when its supplier_id is [uid].  So every row a select
    returns is owned by [uid]; an insert adds only a row owned by [uid]; an
    update turns a row owned by [uid] into a row owned by [uid]; and
    whatever the user does, the rows owned by anyone else stay as they
    are. *)
Theorem measurement_ownership (uid : uuid) :
  (forall r, visible (Authenticated uid) r = true <-> supplier_id r = uid)
  /\ (forall r, with_check_ok Api.tbl_measurements INSERT (Authenticated uid)
                  (measurement_view r) = true <-> supplier_id r = uid)
  /\ (forall r, using_ok Api.tbl_measurements UPDATE (Authenticated uid)
                  (measurement_view r) = true <-> supplier_id r = uid)
  /\ (forall r, with_check_ok Api.tbl_measurements UPDATE (Authenticated uid)
                  (measurement_view r) = true <-> supplier_id r = uid)
  /\ (forall rows act rows',
        step (Authenticated uid) rows act rows' ->
        match act with
        | act_select returned =>
            Forall (fun r => supplier_id r = uid) returned /\ rows' = rows
        | act_insert new =>
            supplier_id new = uid /\ rows' = (rows ++ [new])%list
        | act_update old new =>
            supplier_id old = uid /\ supplier_id new = uid
        | act_delete old => supplier_id old = uid
        end)
  /\ (forall rows act rows',
        step (Authenticated uid) rows act rows' ->
        owned_by_others uid rows' = owned_by_others uid rows).
Proof.
  split; [exact (visible_own uid)|].
  split; [exact (insert_check_own uid)|].
  split; [exact (update_using_own uid)|].
  split; [exact (update_check_own uid)|].
  split.
  - intros rows act rows' Hstep.
    destruct Hstep as [where_ rows|rows new Hc|before old after new Hv Hu Hc Hv'
                      |before old after Hv Hd].
    + split; [|reflexivity]. apply List.Forall_forall. intros r Hr.
      apply filter_In in Hr. destruct Hr as [_ Hr].
      apply andb_true_iff in Hr. now apply visible_own.
    + split; [now apply insert_check_own | reflexivity].
    + split; [now apply visible_own | now apply update_check_own].
    + now apply visible_own.
  - intros rows act rows' Hstep.
    destruct Hstep as [where_ rows|rows new Hc|before old after new Hv Hu Hc Hv'
                      |before old after Hv Hd].
    + reflexivity.
    + rewrite owned_by_others_app, owned_by_others_own
        by now apply insert_check_own.
      apply app_nil_r.
    + rewrite !owned_by_others_app, !owned_by_others_own; [reflexivity| |];
        now apply visible_own.
    + rewrite !owned_by_others_app, owned_by_others_own; [reflexivity|].
      now apply visible_own.
Qed.

(** C4.  The policies of measurements are for SELECT, INSERT and UPDATE and
    nothing else: none applies to a DELETE, for any actor, so no row of
    measurements is ever within reach of a delete and the policy layer has
    no delete transition, while the list view does issue a delete by row
    id. *)
Theorem no_delete_on_measurements :
  map for_command
    (List.filter (fun p => bool_decide (on_table p = Api.tbl_measurements))
       policies)
  = [SELECT; INSERT; UPDATE]
  /\ (forall a, applicable Api.tbl_measurements DELETE a = [])
  /\ (forall a r,
        using_ok Api.tbl_measurements DELETE a (measurement_view r) = false)
  /\ (forall a rows old rows', ~ step a rows (act_delete old) rows')
  /\ (forall (b : Api.backend) (w : Api.world b) s id',
        exists x tr,
          snd (Api.run b (MeasurementList.handleDelete s id' s) w)
          = Api.Event (Api.delete Api.tbl_measurements [Api.eq "id" id']) x
            :: tr).
Proof.
  split; [reflexivity|].
  split; [exact applicable_delete|].
  split; [exact delete_never_in_reach|].
  split.
  - intros a rows old rows' Hstep. inversion Hstep as [| | |? ? ? _ Hd]; subst.
    rewrite delete_never_in_reach in Hd. discriminate.
  - intros b w s id'.
    cbv [Api.run MeasurementList.handleDelete Api.bind Api.try_catch
         Api.await Api.set_state Api.throw Api.prog_bind fst snd].
    destruct (Api.respond b _
                (Api.delete Api.tbl_measurements [Api.eq "id" id']) w)
      as [[e|] w1]; eexists; eexists; reflexivity.
Qed.

End MeasurementPolicies.

(* ===================================================================== *)
(** ** Signup provisioning and the backfill *)
(* ===================================================================== *)

Section SignupProvisioning.
Import Schema.

Variable now : timestamptz.

Lemma ids_app (l1 l2 : list supplier) :
  ids (l1 ++ l2) = (ids l1 ++ ids l2)%list.
Proof. apply List.map_app. Qed.

Lemma emails_app (l1 l2 : list supplier) :
  emails (l1 ++ l2) = (emails l1 ++ emails l2)%list.
Proof. apply List.map_app. Qed.

Lemma rows_of_app (i : uuid) (l1 l2 : list supplier) :
  rows_of i (l1 ++ l2) = (rows_of i l1 ++ rows_of i l2)%list.
Proof. apply List.filter_app. Qed.

Lemma no_row_with_id (i : uuid) (rows : list supplier) :
  ~ In i (ids rows) -> rows_of i rows = [].
Proof.
  induction rows as [|r rows IH]; simpl; intros H; [reflexivity|].
  destruct (String.eqb_spec (id r) i) as [E|_].
  - exfalso. apply H. now left.
  - apply IH. intros Hin. apply H. now right.
Qed.

Lemma one_row_with_id (r : supplier) (rows : list supplier) :
  NoDup (ids rows) -> In r rows -> rows_of (id r) rows = [r].
Proof.
  induction rows as [|r' rows IH]; simpl; intros Hnd Hin; [contradiction|].
  apply NoDup_cons in Hnd. destruct Hnd as [Hfresh Hnd].
  rewrite list_elem_of_In in Hfresh.
  destruct Hin as [->|Hin].
  - rewrite String.eqb_refl. f_equal. now apply no_row_with_id.
  - destruct (String.eqb_spec (id r') (id r)) as [E|_].
    + exfalso. apply Hfresh. rewrite E. now apply in_map.
    + now apply IH.
Qed.

Lemma same_id_same_user (u v : auth_user) (users : list auth_user) :
  NoDup (map au_id users) -> In u users -> In v users ->
  au_id u = au_id v -> u = v.
Proof.
  induction users as [|x users IH]; simpl; intros Hnd Hu Hv E; [contradiction|].
  apply NoDup_cons in Hnd. destruct Hnd as [Hfresh Hnd].
  rewrite list_elem_of_In in Hfresh.
  destruct Hu as [->|Hu], Hv as [->|Hv]; auto.
  - exfalso. apply Hfresh. rewrite E. now apply in_map.
  - exfalso. apply Hfresh. rewrite <- E. now apply in_map.
Qed.

(** What a successful insert of one row did. *)
Lemma insert_supplier_inr (oc : bool) (i : uuid) (e' n' : option string)
  (rows rows' : list supplier) :
  insert_supplier oc now i e' n' rows = inr rows' ->
  exists e n, e' = Some e /\ n' = Some n
    /\ ((In i (ids rows) /\ oc = true /\ rows' = rows)
        \/ (~ In i (ids rows) /\ ~ In e (emails rows)
            /\ rows' = (rows ++ [{| id := i; name := n; email := e;
                                    created_at := now |}])%list)).
Proof.
  unfold insert_supplier.
  destruct e' as [e|], n' as [n|]; try discriminate.
  intros H. exists e, n. split; [reflexivity|]. split; [reflexivity|].
  case_bool_decide as Hid; rewrite list_elem_of_In in Hid.
  - destruct oc; [|discriminate]. left. inversion H; subst. auto.
  - case_bool_decide as Hem; rewrite list_elem_of_In in Hem; [discriminate|].
    right. inversion H; subst. auto.
Qed.

Lemma insert_supplier_fresh (oc : bool) (i : uuid) (e n : string)
  (rows : list supplier) :
  ~ In i (ids rows) -> ~ In e (emails rows) ->
  insert_supplier oc now i (Some e) (Some n) rows
  = inr (rows ++ [{| id := i; name := n; email := e; created_at := now |}])%list.
Proof.
  intros Hi He. unfold insert_supplier.
  case_bool_decide as Hid; rewrite list_elem_of_In in Hid; [contradiction|].
  case_bool_decide as Hem; rewrite list_elem_of_In in Hem; [contradiction|].
  reflexivity.
Qed.

(** The rows the backfill adds, and what it keeps. *)
Lemma insert_selected_inr (selected : list auth_user) :
  forall rows rows',
    insert_selected now selected rows = inr rows' ->
    exists added,
      rows' = (rows ++ added)%list
      /\ (forall r, In r added ->
            exists u e, In u selected /\ au_email u = Some e
              /\ r = {| id := au_id u; name := e; email := e;
                        created_at := now |})
      /\ (forall u, In u selected -> In (au_id u) (ids rows'))
      /\ (NoDup (ids rows) -> NoDup (ids rows')).
Proof.
  induction selected as [|u rest IH]; simpl; intros rows rows' H.
  - inversion H; subst. exists []. rewrite app_nil_r.
    repeat split; auto; intros ? [].
  - destruct (insert_supplier true now (au_id u) (au_email u) (au_email u) rows)
      as [err|rows1] eqn:Hone; [discriminate|].
    apply insert_supplier_inr in Hone.
    destruct Hone as (e & n & He & Hn & Hcase).
    rewrite He in Hn. inversion Hn; subst n.
    destruct (IH _ _ H) as (added & -> & Hadded & Hpresent & Hnodup).
    destruct Hcase as [(Hin & _ & ->)|(Hfresh & _ & ->)].
    + exists added. split; [reflexivity|]. split; [|split].
      * intros r Hr. destruct (Hadded r Hr) as (v & ev & Hv & Hev & ->).
        exists v, ev. auto.
      * intros v [<-|Hv]; [|now apply Hpresent].
        rewrite ids_app. apply in_or_app. now left.
      * exact Hnodup.
    + exists ({| id := au_id u; name := e; email := e; created_at := now |}
              :: added).
      split; [now rewrite <- app_assoc|]. split; [|split].
      * intros r [<-|Hr]; [exists u, e; auto|].
        destruct (Hadded r Hr) as (v & ev & Hv & Hev & ->).
        exists v, ev. auto.
      * intros v [<-|Hv]; [|now apply Hpresent].
        rewrite !ids_app. apply in_or_app. left. apply in_or_app. right.
        now left.
      * intros Hnd. apply Hnodup. rewrite ids_app. simpl.
        apply NoDup_app. split; [exact Hnd|]. split.
        -- intros x Hx [<-|[]]%list_elem_of_In. apply Hfresh.
           now apply list_elem_of_In.
        -- apply NoDup_singleton.
Qed.

(** The backfill goes through when the selected identities have emails,
    no two the same, none in use by a supplier. *)
Lemma insert_selected_succeeds (selected : list auth_user) :
  forall rows,
    (forall u, In u selected ->
       exists e, au_email u = Some e /\ ~ In e (emails rows)) ->
    NoDup (map au_email selected) ->
    exists rows', insert_selected now selected rows = inr rows'.
Proof.
  induction selected as [|u rest IH]; simpl; intros rows Hmail Hnd.
  - eauto.
  - apply NoDup_cons in Hnd. destruct Hnd as [Hfresh Hnd].
    rewrite list_elem_of_In in Hfresh.
    destruct (Hmail u (or_introl eq_refl)) as (e & He & Hunused).
    rewrite He. unfold insert_supplier.
    case_bool_decide as Hid.
    + apply IH; [|exact Hnd]. intros v Hv. apply Hmail. now right.
    + case_bool_decide as Hem; rewrite list_elem_of_In in Hem;
        [contradiction|].
      apply IH; [|exact Hnd]. intros v Hv.
      destruct (Hmail v (or_intror Hv)) as (ev & Hev & Hvunused).
      exists ev. split; [exact Hev|].
      rewrite emails_app. intros [Hin|[Heq|[]]]%in_app_or; [contradiction|].
      simpl in Heq. subst ev.
      apply Hfresh. rewrite He, <- Hev. now apply in_map.
Qed.

Lemma NoDup_map_filter {A B} (f : A -> B) (p : A -> bool) (l : list A) :
  NoDup (map f l) -> NoDup (map f (List.filter p l)).
Proof.
  induction l as [|x l IH]; simpl; intros Hnd; [constructor|].
  apply NoDup_cons in Hnd. destruct Hnd as [Hfresh Hnd].
  rewrite list_elem_of_In in Hfresh.
  destruct (p x); simpl; [|now apply IH].
  apply NoDup_cons. split; [|now apply IH].
  rewrite list_elem_of_In. intros Hin. apply Hfresh.
  apply in_map_iff in Hin. destruct Hin as (y & Hy & Hin).
  apply filter_In in Hin. rewrite <- Hy. apply in_map. tauto.
Qed.

(** C3, as the code has it.  A signup that goes through leaves exactly one
    supplier row for the new identity, put there by the trigger: its id
    and email are the identity's, its name is the metadata's full_name
    when the metadata has one and the email otherwise; and a signup goes
    through when the id is new and the email is set and not in use.  The
    backfill keeps the rows that were there and, for every identity that
    had no supplier row, leaves exactly one row with the identity's id and
    email and with the email as its name (the metadata is not read); an
    identity that has a row is skipped, so that no id has two rows
    afterwards; and the backfill goes through when the identities without a
    row have emails that are set, distinct and not in use. *)
Theorem signup_provisioning (d : db) :
  (forall new d',
     signup now new d = inr d' ->
     exists e,
       au_email new = Some e
       /\ auth_users d' = (auth_users d ++ [new])%list
       /\ rows_of (au_id new) (suppliers d) = []
       /\ rows_of (au_id new) (suppliers d')
          = [{| id := au_id new;
                name := default e (get_text (raw_user_meta_data new)
                                     "full_name");
                email := e;
                created_at := now |}])
  /\ (forall new e,
        ~ In (au_id new) (map au_id (auth_users d)) ->
        ~ In (au_id new) (ids (suppliers d)) ->
        au_email new = Some e ->
        ~ In e (emails (suppliers d)) ->
        exists d', signup now new d = inr d')
  /\ (forall d',
        NoDup (ids (suppliers d)) ->
        NoDup (map au_id (auth_users d)) ->
        backfill now d = inr d' ->
        auth_users d' = auth_users d
        /\ (exists added, suppliers d' = (suppliers d ++ added)%list)
        /\ NoDup (ids (suppliers d'))
        /\ (forall u,
              In u (auth_users d) ->
              ~ In (au_id u) (ids (suppliers d)) ->
              exists e,
                au_email u = Some e
                /\ rows_of (au_id u) (suppliers d')
                   = [{| id := au_id u; name := e; email := e;
                         created_at := now |}]))
  /\ ((forall u,
         In u (auth_users d) ->
         ~ In (au_id u) (ids (suppliers d)) ->
         exists e, au_email u = Some e /\ ~ In e (emails (suppliers d))) ->
      NoDup (map au_email (auth_users d)) ->
      exists d', backfill now d = inr d').
Proof.
  split; [|split; [|split]].
  - intros new d' H. unfold signup in H.
    case_bool_decide as Hnew; [discriminate|].
    destruct (handle_new_user now new (suppliers d)) as [err|rows] eqn:Htrig;
      [discriminate|].
    inversion H; subst d'; clear H. simpl.
    unfold handle_new_user in Htrig. apply insert_supplier_inr in Htrig.
    destruct Htrig as (e & n & He & Hn & [(_ & Hoc & _)|(Hid & _ & ->)]);
      [discriminate|].
    exists e. split; [exact He|]. split; [reflexivity|].
    split; [now apply no_row_with_id|].
    rewrite rows_of_app, no_row_with_id by exact Hid.
    simpl. rewrite String.eqb_refl. simpl.
    rewrite He in Hn.
    destruct (get_text (raw_user_meta_data new) "full_name");
      simpl in Hn; inversion Hn; reflexivity.
  - intros new e Hnew Hid He Hmail. unfold signup.
    case_bool_decide as Hdup; rewrite list_elem_of_In in Hdup;
      [contradiction|].
    unfold handle_new_user. rewrite He.
    destruct (get_text (raw_user_meta_data new) "full_name") as [n|];
      cbn [COALESCE];
      erewrite insert_supplier_fresh by eassumption; eauto.
  - intros d' Hpk Hupk H. unfold backfill in H.
    destruct (insert_selected now _ (suppliers d)) as [err|rows] eqn:Hsel;
      [discriminate|].
    inversion H; subst d'; clear H. simpl.
    apply insert_selected_inr in Hsel.
    destruct Hsel as (added & -> & Hadded & Hpresent & Hnodup).
    split; [reflexivity|]. split; [eauto|]. split; [auto|].
    intros u Hu Hnone.
    assert (Hsel : In u (List.filter
                           (fun u => negb (bool_decide (au_id u ∈ ids (suppliers d))))
                           (auth_users d))).
    { apply filter_In. split; [exact Hu|].
      apply negb_true_iff, bool_decide_eq_false.
      now rewrite list_elem_of_In. }
    pose proof (Hpresent u Hsel) as Hin.
    apply in_map_iff in Hin. destruct Hin as (r & Hr & Hin).
    apply in_app_or in Hin. destruct Hin as [Hin|Hin].
    { exfalso. apply Hnone. rewrite <- Hr. now apply in_map. }
    destruct (Hadded r Hin) as (v & e & Hv & He & Hrow).
    assert (v = u) as ->.
    { apply filter_In in Hv. destruct Hv as [Hv _].
      apply (same_id_same_user v u (auth_users d)); auto.
      rewrite <- Hr, Hrow. reflexivity. }
    exists e. split; [exact He|].
    rewrite <- Hrow, <- Hr. apply one_row_with_id; [auto|].
    apply in_or_app. now right.
  - intros Hmail Hnd. unfold backfill.
    destruct (insert_selected_succeeds
                (List.filter
                   (fun u => negb (bool_decide (au_id u ∈ ids (suppliers d))))
                   (auth_users d)) (suppliers d)) as [rows Hrows].
    + intros u Hu. apply filter_In in Hu. destruct Hu as [Hu Hnone].
      apply Hmail; [exact Hu|].
      apply negb_true_iff, bool_decide_eq_false in Hnone.
      now rewrite <- list_elem_of_In.
    + now apply NoDup_map_filter.
    + rewrite Hrows. eauto.
Qed.

End SignupProvisioning.

(* ===================================================================== *)
(** ** The statements at concrete inputs *)
(* ===================================================================== *)

Lemma measurement_ownership_witness :
  Schema.step (Schema.Authenticated "a1") []
    (Schema.act_insert Examples.alices_row) [Examples.alices_row]
  /\ Schema.supplier_id Examples.alices_row = "a1"
  /\ Schema.owned_by_others "a1" [Examples.alices_row]
     = Schema.owned_by_others "a1" [].
Proof.
  assert (Hstep : Schema.step (Schema.Authenticated "a1") []
                    (Schema.act_insert Examples.alices_row)
                    [Examples.alices_row]).
  { apply (Schema.step_insert _ [] Examples.alices_row). reflexivity. }
  destruct (measurement_ownership "a1") as (_ & _ & _ & _ & Hact & Hothers).
  split; [exact Hstep|]. split.
  - exact (proj1 (Hact _ _ _ Hstep)).
  - exact (Hothers _ _ _ Hstep).
Defined.

Lemma handleDelete_behaviour_witness :
  MeasurementList.measurements Examples.list_editing
  = [Examples.reading "m1" 10%float; Examples.reading "m2" 9.99%float;
     Examples.reading "m3" 20.01%float]
  /\ MeasurementList.measurements
       (fst (fst (fst (Api.run (Api.scripted Examples.accepting)
                         (MeasurementList.handleDelete Examples.list_editing
                            "m2" Examples.list_editing) 0%nat))))
     = [Examples.reading "m1" 10%float; Examples.reading "m3" 20.01%float].
Proof.
  split; [reflexivity|].
  destruct (handleDelete_behaviour (Api.scripted Examples.accepting) 0%nat
              Examples.list_editing "m2") as (Hrun & Hsplit & _).
  cbn [Api.respond Api.scripted Api.answer Api.mutation_error
       Examples.accepting] in Hrun.
  rewrite Hrun. cbn [fst MeasurementList.measurements].
  apply (Hsplit [Examples.reading "m1" 10%float]
                (Examples.reading "m2" 9.99%float)
                [Examples.reading "m3" 20.01%float]).
  - reflexivity.
  - reflexivity.
  - intros r [[<-|[]]|[<-|[]]]; discriminate.
Defined.

Lemma signup_provisioning_witness :
  (exists d',
     Schema.signup 7%Z Examples.named_user Examples.before_signup = inr d'
     /\ Schema.rows_of "a1" (Schema.suppliers d')
        = [{| Schema.id := "a1"; Schema.name := "Alice";
              Schema.email := "alice@example.com";
              Schema.created_at := 7%Z |}])
  /\ (exists d',
        Schema.backfill 7%Z Examples.before_backfill = inr d'
        /\ Schema.rows_of "a1" (Schema.suppliers d')
           = [{| Schema.id := "a1"; Schema.name := "alice@example.com";
                 Schema.email := "alice@example.com";
                 Schema.created_at := 7%Z |}]).
Proof.
  split.
  - destruct (signup_provisioning 7%Z Examples.before_signup)
      as (Htrigger & Hgoes & _).
    destruct (Hgoes Examples.named_user "alice@example.com") as [d' Hd'].
    + simpl. tauto.
    + simpl. intros [H|[]]. discriminate.
    + reflexivity.
    + simpl. intros [H|[]]. discriminate.
    + exists d'. split; [exact Hd'|].
      destruct (Htrigger _ _ Hd') as (e & He & _ & _ & Hrow).
      inversion He; subst e. exact Hrow.
  - destruct (signup_provisioning 7%Z Examples.before_backfill)
      as (_ & _ & Hbackfill & Hgoes).
    destruct Hgoes as [d' Hd'].
    + intros u [<-|[]] _. exists "alice@example.com". split; [reflexivity|].
      simpl. intros [H|[]]. discriminate.
    + apply NoDup_singleton.
    + exists d'. split; [exact Hd'|].
      destruct (Hbackfill d') as (_ & _ & _ & Hrows).
      * apply NoDup_singleton.
      * apply NoDup_singleton.
      * exact Hd'.
      * destruct (Hrows Examples.named_user) as (e & He & Hrow).
        -- now left.
        -- simpl. intros [H|[]]. discriminate.
        -- inversion He; subst e. exact Hrow.
Defined.

(** C6 as first stated fails on a refused insert: what the backend answers
    is an error object that is no Error instance, and the form shows the
    fixed text 'An error occurred', not the message of that error. *)
Lemma handleSubmit_hides_backend_message :
  Api.mutation_error Examples.rejecting
  = Some {| Api.is_Error := false;
            Api.message := "new row violates row-level security policy" |}
  /\ MeasurementForm.error
       (fst (fst (fst (Api.run (Api.scripted Examples.rejecting)
                         (MeasurementForm.handleSubmit Examples.form_filled
                            Examples.form_filled) 0%nat))))
     = Some "An error occurred"
  /\ ~ Spec.surfaces_message
         (MeasurementForm.error
            (fst (fst (fst (Api.run (Api.scripted Examples.rejecting)
                              (MeasurementForm.handleSubmit Examples.form_filled
                                 Examples.form_filled) 0%nat)))))
         {| Api.is_Error := false;
            Api.message := "new row violates row-level security policy" |}.
Proof.
  split; [reflexivity|]. split; [reflexivity|].
  unfold Spec.surfaces_message. vm_compute. discriminate.
Qed.

(** C3 as first stated fails on the backfill: for an identity whose
    metadata has a full_name, the trigger's row carries that name and is
    not the row the backfill inserts, whose name is the email. *)
Lemma backfill_differs_from_trigger :
  ~ Spec.backfill_inserts_trigger_row 7%Z Examples.before_backfill.
Proof.
  intros H.
  assert (Hb : Schema.backfill 7%Z Examples.before_backfill
               = inr {| Schema.auth_users := [Examples.named_user];
                        Schema.suppliers :=
                          [Examples.test_supplier;
                           {| Schema.id := "a1";
                              Schema.name := "alice@example.com";
                              Schema.email := "alice@example.com";
                              Schema.created_at := 7%Z |}] |})
    by (vm_compute; reflexivity).
  assert (Ht : Schema.handle_new_user 7%Z Examples.named_user
                 (Schema.suppliers Examples.before_backfill)
               = inr [Examples.test_supplier;
                      {| Schema.id := "a1"; Schema.name := "Alice";
                         Schema.email := "alice@example.com";
                         Schema.created_at := 7%Z |}])
    by (vm_compute; reflexivity).
  specialize (H _ Hb Examples.named_user (or_introl eq_refl)).
  assert (Hnone : ~ In (Schema.au_id Examples.named_user)
                      (Schema.ids (Schema.suppliers Examples.before_backfill))).
  { simpl. intros [E|[]]. discriminate. }
  specialize (H Hnone _ Ht _ (or_intror (or_introl eq_refl)) eq_refl).
  simpl in H. destruct H as [E|[E|[]]]; discriminate.
Qed.

(* ===================================================================== *)
(** ** The policies of the other tables, and who may do nothing *)
(* ===================================================================== *)

Section OtherPolicies.
Import Schema.

(** X1.  A signed-in user reads a supplier row exactly when it is the
    user's own; no actor passes a policy for inserting, updating or
    deleting a supplier row, so supplier rows come from the trigger and
    the migrations alone. *)
Theorem suppliers_read_only (uid : uuid) :
  (forall s, using_ok Api.tbl_suppliers SELECT (Authenticated uid)
               (supplier_view s) = true <-> id s = uid)
  /\ (forall a r, with_check_ok Api.tbl_suppliers INSERT a r = false)
  /\ (forall a r, using_ok Api.tbl_suppliers UPDATE a r = false)
  /\ (forall a r, with_check_ok Api.tbl_suppliers UPDATE a r = false)
  /\ (forall a r, using_ok Api.tbl_suppliers DELETE a r = false).
Proof.
  split.
  { intros s. unfold using_ok.
    change (applicable Api.tbl_suppliers SELECT (Authenticated uid))
      with [suppliers_read_own_data].
    unfold passes; simpl. rewrite orb_false_r.
    destruct (String.eqb_spec uid (id s)); split; congruence. }
  repeat split; intros [|v] r; reflexivity.
Qed.

(** X2.  Every signed-in user may read, insert and update every quality
    parameter, whatever the row holds and whoever created it; nobody may
    delete one. *)
Theorem quality_parameters_open_to_all (uid : uuid) (r : row_view) :
  using_ok Api.tbl_quality_parameters SELECT (Authenticated uid) r = true
  /\ with_check_ok Api.tbl_quality_parameters INSERT (Authenticated uid) r = true
  /\ using_ok Api.tbl_quality_parameters UPDATE (Authenticated uid) r = true
  /\ with_check_ok Api.tbl_quality_parameters UPDATE (Authenticated uid) r = true
  /\ (forall a, using_ok Api.tbl_quality_parameters DELETE a r = false).
Proof. repeat split. Qed.

(** X3.  Every policy of the schema is for the role authenticated and none
    is for DELETE (or for all commands): a request without a signed-in
    user reaches no row and is allowed no new row on any table, and no
    actor reaches a row for deletion on any table. *)
Theorem default_deny (t : Api.table) (c : command) (r : row_view) :
  Forall (fun p => to_roles p = [authenticated]
                   /\ for_command p <> DELETE /\ for_command p <> ALL) policies
  /\ using_ok t c Anon r = false
  /\ with_check_ok t c Anon r = false
  /\ (forall a, using_ok t DELETE a r = false).
Proof.
  split; [repeat constructor; discriminate|].
  split; [destruct t, c; reflexivity|].
  split; [destruct t, c; reflexivity|].
  intros [|v]; destruct t; reflexivity.
Qed.

End OtherPolicies.

(* ===================================================================== *)
(** ** Histories of the measurements table *)
(* ===================================================================== *)

Section Histories.
Import Schema Tenancy.

Lemma anon_sees_nothing (r : measurement) : visible Anon r = false.
Proof. reflexivity. Qed.

Lemma anon_adds_nothing (r : measurement) :
  with_check_ok Api.tbl_measurements INSERT Anon (measurement_view r) = false.
Proof. reflexivity. Qed.

Lemma owned_by_app uid l1 l2 :
  owned_by uid (l1 ++ l2) = (owned_by uid l1 ++ owned_by uid l2)%list.
Proof. apply List.filter_app. Qed.

Lemma owned_by_other uid r rows :
  supplier_id r <> uid -> owned_by uid (r :: rows) = owned_by uid rows.
Proof.
  intros H. unfold owned_by; simpl.
  destruct (String.eqb_spec (supplier_id r) uid); [contradiction|reflexivity].
Qed.

(** One step of anyone else leaves the rows of [uid] as they are. *)
Lemma step_of_another (uid : uuid) (a : actor) rows act rows' :
  a <> Authenticated uid ->
  step a rows act rows' ->
  owned_by uid rows' = owned_by uid rows.
Proof.
  intros Ha Hstep.
  assert (Hmine : forall r, visible a r = true -> supplier_id r <> uid).
  { intros r Hv E. destruct a as [|v]; [now rewrite anon_sees_nothing in Hv|].
    apply visible_own in Hv. apply Ha. congruence. }
  destruct Hstep as [where_ rows|rows new Hc|before old after new Hv Hu Hc Hv'
                    |before old after Hv Hd].
  - reflexivity.
  - rewrite owned_by_app, owned_by_other; [apply app_nil_r|].
    intros E. destruct a as [|v]; [now rewrite anon_adds_nothing in Hc|].
    apply insert_check_own in Hc. apply Ha. congruence.
  - rewrite !owned_by_app, !owned_by_other by auto. reflexivity.
  - rewrite !owned_by_app, owned_by_other by auto. reflexivity.
Qed.

(** X4.  Tenant isolation: over any history in which [uid] takes no step,
    whoever else acts and however often, the measurements owned by [uid]
    are at the end exactly what they were at the start, in the same
    order. *)
Theorem rows_untouched_by_others (uid : uuid) rows history rows' :
  steps rows history rows' ->
  Forall (fun entry => fst entry <> Authenticated uid) history ->
  owned_by uid rows' = owned_by uid rows.
Proof.
  induction 1 as [rows|rows a act rows1 history rows2 Hstep Hrest IH];
    intros Hothers.
  - reflexivity.
  - apply Forall_cons in Hothers. destruct Hothers as [Ha Hothers].
    rewrite IH by exact Hothers.
    now apply (step_of_another uid a rows act rows1).
Qed.

Lemma step_length (a : actor) rows act rows' :
  step a rows act rows' ->
  length rows' = (length rows + (if is_insert (a, act) then 1 else 0))%nat.
Proof.
  intros Hstep.
  destruct Hstep as [where_ rows|rows new Hc|before old after new Hv Hu Hc Hv'
                    |before old after Hv Hd].
  - simpl. lia.
  - rewrite length_app. reflexivity.
  - rewrite !length_app. simpl. lia.
  - now rewrite delete_never_in_reach in Hd.
Qed.

(** X5.  Through the policy layer the measurements table only grows: after
    any history its size is the size at the start plus the number of
    inserts, so no sequence of requests of any actors removes a row. *)
Theorem table_only_grows rows history rows' :
  steps rows history rows' ->
  length rows' = (length rows + inserts history)%nat.
Proof.
  induction 1 as [rows|rows a act rows1 history rows2 Hstep Hrest IH].
  - unfold inserts; simpl. lia.
  - rewrite IH, (step_length a rows act rows1 Hstep).
    unfold inserts; simpl. destruct (is_insert (a, act)); simpl; lia.
Qed.

End Histories.

(* ===================================================================== *)
(** ** Signup and backfill: outcomes and what they keep *)
(* ===================================================================== *)

Section ProvisioningProperties.
Import Schema Provisioning.

Variable now : timestamptz.

(** X6.  A signup goes through exactly when the id is new to both tables
    and the email is set and used by no supplier.  Otherwise it fails, and
    the error names the cause: the id is an identity's already
    (users_pkey); the email is NULL, which is reported on the name column
    when the metadata has no full_name (the name then falls back to the
    NULL email, and name is the earlier column) and on the email column
    when it has one; the id is a supplier's (suppliers_pkey); the email is
    a supplier's (suppliers_email_key). *)
Theorem signup_outcome (new : auth_user) (d : db) :
  match signup now new d with
  | inr d' =>
      ~ In (au_id new) (map au_id (auth_users d))
      /\ ~ In (au_id new) (ids (suppliers d))
      /\ exists e, au_email new = Some e /\ ~ In e (emails (suppliers d))
  | inl (not_null_violation column) =>
      au_email new = None
      /\ ~ In (au_id new) (map au_id (auth_users d))
      /\ column = match get_text (raw_user_meta_data new) "full_name" with
                  | Some _ => "email"
                  | None => "name"
                  end
  | inl (unique_violation constraint) =>
      (constraint = "users_pkey"
       /\ In (au_id new) (map au_id (auth_users d)))
      \/ (constraint = "suppliers_pkey"
          /\ ~ In (au_id new) (map au_id (auth_users d))
          /\ In (au_id new) (ids (suppliers d)))
      \/ (constraint = "suppliers_email_key"
          /\ ~ In (au_id new) (map au_id (auth_users d))
          /\ ~ In (au_id new) (ids (suppliers d))
          /\ exists e, au_email new = Some e /\ In e (emails (suppliers d)))
  end.
Proof.
  unfold signup, handle_new_user, insert_supplier.
  case_bool_decide as Hnew; rewrite list_elem_of_In in Hnew; [now left|].
  destruct (au_email new) as [e|] eqn:He.
  - assert (Hname : exists n,
               COALESCE (get_text (raw_user_meta_data new) "full_name") (Some e)
               = Some n)
      by (destruct (get_text _ _); simpl; eauto).
    destruct Hname as [n ->].
    case_bool_decide as Hid; rewrite list_elem_of_In in Hid;
      [right; now left|].
    case_bool_decide as Hem; rewrite list_elem_of_In in Hem.
    + right. right. eauto 6.
    + eauto 6.
  - destruct (get_text (raw_user_meta_data new) "full_name"); simpl; auto.
Qed.

Lemma insert_selected_emails (selected : list auth_user) :
  forall rows rows',
    insert_selected now selected rows = inr rows' ->
    NoDup (emails rows) -> NoDup (emails rows').
Proof.
  induction selected as [|u rest IH]; simpl; intros rows rows' H Hnd.
  - now inversion H; subst.
  - destruct (insert_supplier true now (au_id u) (au_email u) (au_email u) rows)
      as [err|rows1] eqn:Hone; [discriminate|].
    apply insert_supplier_inr in Hone.
    destruct Hone as (e & n & He & Hn & [(_ & _ & ->)|(_ & Hfresh & ->)]).
    + now apply (IH rows).
    + apply (IH _ _ H). rewrite emails_app. simpl.
      apply NoDup_app. split; [exact Hnd|]. split.
      * intros x Hx [<-|[]]%list_elem_of_In. apply Hfresh.
        now apply list_elem_of_In.
      * apply NoDup_singleton.
Qed.

Lemma backfill_provisions (d d' : db) :
  backfill now d = inr d' -> provisioned d'.
Proof.
  unfold backfill.
  destruct (insert_selected now _ (suppliers d)) as [err|rows] eqn:Hsel;
    [discriminate|].
  intros H. inversion H; subst d'; clear H. intros u Hu. simpl in *.
  apply insert_selected_inr in Hsel.
  destruct Hsel as (added & -> & _ & Hpresent & _).
  destruct (bool_decide (au_id u ∈ ids (suppliers d))) eqn:Hcovered.
  - apply bool_decide_eq_true, list_elem_of_In in Hcovered.
    rewrite ids_app. apply in_or_app. now left.
  - apply Hpresent. apply filter_In. split; [exact Hu|].
    now rewrite Hcovered.
Qed.

Lemma backfill_of_provisioned (t : timestamptz) (d : db) :
  provisioned d -> backfill t d = inr d.
Proof.
  intros Hp. unfold backfill.
  assert (Hnone : List.filter
                    (fun u => negb (bool_decide (au_id u ∈ ids (suppliers d))))
                    (auth_users d) = []).
  { unfold provisioned in Hp. revert Hp. generalize (auth_users d).
    induction l as [|u users IH]; intros Hp; [reflexivity|]. simpl.
    rewrite bool_decide_eq_true_2
      by (apply list_elem_of_In, Hp; now left).
    simpl. apply IH. intros v Hv. apply Hp. now right. }
  rewrite Hnone. simpl. now destruct d.
Qed.

(** X7.  Signup and backfill keep the keys of both tables (no two
    identities and no two suppliers with one id, no two suppliers with one
    email); a signup keeps every identity provisioned with a supplier row,
    and the backfill leaves every identity provisioned. *)
Theorem provisioning_invariants (d d' : db) :
  consistent d ->
  (forall new, signup now new d = inr d' ->
               consistent d' /\ (provisioned d -> provisioned d'))
  /\ (backfill now d = inr d' -> consistent d' /\ provisioned d').
Proof.
  intros (Husers & Hids & Hemails). split.
  - intros new H.
    unfold signup in H.
    case_bool_decide as Hnew; [discriminate|].
    rewrite list_elem_of_In in Hnew.
    destruct (handle_new_user now new (suppliers d)) as [err|rows] eqn:Htrig;
      [discriminate|].
    inversion H; subst d'; clear H.
    unfold handle_new_user in Htrig. apply insert_supplier_inr in Htrig.
    destruct Htrig as (e & n & He & _ & [(_ & Hoc & _)|(Hid & Hem & ->)]);
      [discriminate|].
    split; [split; [|split]|]; cbn [auth_users suppliers].
    + rewrite map_app. apply NoDup_app. split; [exact Husers|]. split.
      * intros x Hx [<-|[]]%list_elem_of_In. apply Hnew.
        now apply list_elem_of_In.
      * apply NoDup_singleton.
    + rewrite ids_app. apply NoDup_app. split; [exact Hids|]. split.
      * intros x Hx [<-|[]]%list_elem_of_In. apply Hid.
        now apply list_elem_of_In.
      * apply NoDup_singleton.
    + rewrite emails_app. apply NoDup_app. split; [exact Hemails|]. split.
      * intros x Hx [<-|[]]%list_elem_of_In. apply Hem.
        now apply list_elem_of_In.
      * apply NoDup_singleton.
    + intros Hp u Hu. cbn [auth_users suppliers] in *.
      rewrite ids_app. apply in_or_app.
      apply in_app_or in Hu. destruct Hu as [Hu|[<-|[]]].
      * left. now apply Hp.
      * right. now left.
  - intros H. split; [|now apply (backfill_provisions d)].
    unfold backfill in H.
    destruct (insert_selected now _ (suppliers d)) as [err|rows] eqn:Hsel;
      [discriminate|].
    inversion H; subst d'; clear H.
    split; [exact Husers|]. split; cbn [auth_users suppliers].
    + apply insert_selected_inr in Hsel.
      destruct Hsel as (added & -> & _ & _ & Hnodup). auto.
    + now apply (insert_selected_emails _ _ _ Hsel).
Qed.

(** X8.  The backfill is idempotent: run again on its own result, at any
    later time, it goes through and changes nothing; and on a database
    whose identities all have a supplier row it changes nothing. *)
Theorem backfill_idempotent (d d' : db) :
  backfill now d = inr d' ->
  (forall later, backfill later d' = inr d')
  /\ (forall d0 t, provisioned d0 -> backfill t d0 = inr d0).
Proof.
  intros H. split.
  - intros later. apply backfill_of_provisioned.
    now apply (backfill_provisions d).
  - intros d0 t. apply backfill_of_provisioned.
Qed.

End ProvisioningProperties.

(* ===================================================================== *)
(** ** The rendered measurement list *)
(* ===================================================================== *)

Section ListViewProperties.
Import Api MeasurementList ListView.

Variable b : backend.
Variable Number_toString : Js.number -> string.

Ltac run_view :=
  cbv [run interact handler handleEdit handleCancel handleUpdate handleDelete
       loadMeasurements bind try_finally try_catch await set_state throw ret
       prog_bind fst snd].

(** With an error shown, using a control of a row does nothing. *)
Lemma interact_behind_error (s : State) (ev : ui_event) (w : world b) msg :
  error s = Some msg ->
  msg <> "" ->
  exists s', run b (interact Number_toString s ev) w = ((s', inr tt), w, [])
             /\ error s' = Some msg
             /\ loading s' = loading s
             /\ measurements s' = measurements s.
Proof.
  intros He Hne. destruct ev as [row c|[]].
  - exists s. unfold interact, render. rewrite He, truthy_nonempty.
    destruct (decide (msg = "")); [contradiction|].
    destruct (loading s), (nth_error (measurements s) row); auto.
  - exists (fire reset_edit_state s). auto.
Qed.

(** X9.  An error with a text is final for the mounted list: once the
    error cell holds a string that is not empty, the error box is rendered
    in place of the table and its controls, so whatever controls are used
    and whatever timers fire afterwards, no call is made, the error stays
    the same and the rows stay the same.  A reload of the measurements in
    that state does not take the error away either: it keeps it when the
    reload goes through and puts the reload's own error text in its place
    when it does not. *)
Theorem error_is_final (evs : list ui_event) (s : State) (w : world b) msg :
  error s = Some msg ->
  msg <> "" ->
  (exists s',
     session b Number_toString evs s w = (s', w, [])
     /\ error s' = Some msg
     /\ measurements s' = measurements s)
  /\ render s = (if loading s then loading_view else error_view msg)
  /\ error (fst (fst (fst (run b (loadMeasurements s s) w))))
     = match respond b _ auth_getUser w with
       | (None, _) => Some "No authenticated user"
       | (Some user, w1) =>
           match Api.error
                   (fst (respond b _
                           (select (build_query (filters s) user)) w1)) with
           | Some e => Some (if is_Error e then message e
                             else "An error occurred")
           | None => Some msg
           end
       end.
Proof.
  intros He Hne. split; [|split].
  - revert s w He. induction evs as [|ev rest IH]; intros s w He; simpl.
    + eauto.
    + destruct (interact_behind_error s ev w msg He Hne)
        as (s1 & -> & He1 & _ & Hrows1).
      destruct (IH s1 w He1) as (s2 & Hs2 & He2 & Hrows2).
      simpl. rewrite Hs2. exists s2. repeat split; congruence.
  - unfold render. rewrite He, truthy_nonempty.
    now destruct (decide (msg = "")).
  - run_view.
    destruct (respond b _ auth_getUser w) as [[user|] w1]; [|reflexivity].
    destruct (respond b _ (select (build_query (filters s) user)) w1)
      as [r w2].
    simpl. destruct (Api.error r); simpl; [reflexivity|exact He].
Qed.

Lemma interact_keeps_idle (s : State) (ev : ui_event) (w : world b) :
  deletingId s = None ->
  is_delete_click ev = false ->
  deletingId (fst (fst (fst (run b (interact Number_toString s ev) w)))) = None
  /\ Forall (fun e => is_delete_call e = false)
            (snd (run b (interact Number_toString s ev) w)).
Proof.
  intros Hidle Hev. destruct ev as [row c|[]]; [|split; [exact Hidle|constructor]].
  unfold interact.
  destruct (render s); try (split; [exact Hidle|constructor]).
  destruct (nth_error (measurements s) row) as [m|];
    [|split; [exact Hidle|constructor]].
  destruct (shown s m c) eqn:Hshown; [|split; [exact Hidle|constructor]].
  destruct c; try discriminate; run_view.
  - split; [exact Hidle|constructor].
  - destruct (Js.isNaN (Js.parseFloat (editValue s)));
      [split; [exact Hidle|constructor]|].
    destruct (respond b _ _ w) as [[e|] w1].
    + split; [exact Hidle|repeat constructor].
    + destruct (respond b _ _ w1) as [[] w2].
      split; [exact Hidle|repeat constructor].
  - split; [exact Hidle|constructor].
  - split; [exact Hidle|constructor].
  - unfold shown, deleting in Hshown. rewrite Hidle in Hshown.
    rewrite bool_decide_eq_false_2 in Hshown by discriminate.
    now rewrite andb_false_r in Hshown.
  - split; [reflexivity|constructor].
Qed.

(** X10.  Deleting takes two steps: from a list with no deletion pending,
    a run of events in which the Delete button is never pressed makes no
    delete call, whatever else is used (Confirm included) and whatever the
    backend answers. *)
Theorem no_delete_without_delete_click (evs : list ui_event) (s : State)
  (w : world b) :
  deletingId s = None ->
  Forall (fun ev => is_delete_click ev = false) evs ->
  Forall (fun e => is_delete_call e = false)
         (snd (session b Number_toString evs s w)).
Proof.
  revert s w. induction evs as [|ev rest IH]; intros s w Hidle Hevs; simpl.
  - constructor.
  - apply Forall_cons in Hevs. destruct Hevs as [Hev Hrest].
    destruct (interact_keeps_idle s ev w Hidle Hev) as [Hidle1 Hcalls1].
    destruct (run b (interact Number_toString s ev) w) as [[r w1] calls1].
    specialize (IH (fst r) w1 Hidle1 Hrest).
    destruct (session b Number_toString rest (fst r) w1) as [[s2 w2] calls2].
    simpl in *. apply Forall_app. split; assumption.
Qed.

Lemma same_id_same_row (m r : Measurement) (rows : list Measurement) :
  NoDup (map id rows) -> In m rows -> In r rows -> id r = id m -> r = m.
Proof.
  induction rows as [|x rows IH]; simpl; intros Hnd Hm Hr E; [contradiction|].
  apply NoDup_cons in Hnd. destruct Hnd as [Hfresh Hnd].
  rewrite list_elem_of_In in Hfresh.
  destruct Hm as [->|Hm], Hr as [->|Hr]; auto.
  - exfalso. apply Hfresh. rewrite <- E. now apply in_map.
  - exfalso. apply Hfresh. rewrite E. now apply in_map.
Qed.

(** X11.  A save never adds, drops or reorders rows: the ids, and with
    them the length, of the local list are after a successful save what
    they were.  And when the buffer parses to the value the row already
    has, in a list whose ids are distinct, a successful save leaves the
    whole list as it was. *)
Theorem save_keeps_rows (s : State) (m : Measurement) (v : Js.number) :
  map id (map (replace_value m v) (measurements s)) = map id (measurements s)
  /\ map measured_at (map (replace_value m v) (measurements s))
     = map measured_at (measurements s)
  /\ (forall w,
        NoDup (map id (measurements s)) ->
        In m (measurements s) ->
        Js.isNaN (Js.parseFloat (editValue s)) = false ->
        Js.parseFloat (editValue s) = value m ->
        fst (respond b _ (update tbl_measurements (value m) [eq "id" (id m)]) w)
        = None ->
        measurements (fst (fst (fst (run b (handleUpdate s m s) w))))
        = measurements s).
Proof.
  split; [|split].
  - rewrite map_map. apply map_ext. intros r. unfold replace_value.
    now destruct (String.eqb (id r) (id m)).
  - rewrite map_map. apply map_ext. intros r. unfold replace_value.
    now destruct (String.eqb (id r) (id m)).
  - intros w Hnd Hm HNaN Hsame Hok. run_view. rewrite HNaN, Hsame.
    destruct (respond b _ (update tbl_measurements (value m) [eq "id" (id m)]) w)
      as [err w1]. simpl in Hok. subst err.
    destruct (respond b _ (setTimeout reset_edit_state 1500) w1) as [[] w2].
    simpl. rewrite <- (map_id (measurements s)) at 2.
    apply map_ext_in. intros r Hr. unfold replace_value.
    destruct (String.eqb_spec (id r) (id m)) as [E|_]; [|reflexivity].
    rewrite (same_id_same_row m r (measurements s) Hnd Hm Hr E).
    now destruct m.
Qed.

Lemma filter_split_length {A} (f : A -> bool) (l : list A) :
  (length (List.filter f l) + length (List.filter (fun x => negb (f x)) l))%nat
  = length l.
Proof.
  induction l as [|x l IH]; simpl; [reflexivity|].
  destruct (f x); simpl; lia.
Qed.

(** X12.  The two status filters split the fetched rows: every fetched row
    is kept by exactly one of 'within' and 'outside', so their counts add
    up to the count under 'all'. *)
Theorem status_filters_split (sd ed p : string) (data : list Measurement) :
  let f st := {| startDate := sd; endDate := ed; parameter := p;
                 status := st |} in
  (length (status_filter (f within) (Some data))
   + length (status_filter (f outside) (Some data)))%nat
  = length (status_filter (f all) (Some data))
  /\ (forall m, In m data ->
        (In m (status_filter (f within) (Some data))
         /\ ~ In m (status_filter (f outside) (Some data)))
        \/ (In m (status_filter (f outside) (Some data))
            /\ ~ In m (status_filter (f within) (Some data)))).
Proof.
  intros f.
  change (status_filter (f within) (Some data))
    with (List.filter (status_callback (f within)) data).
  change (status_filter (f outside) (Some data))
    with (List.filter (status_callback (f outside)) data).
  change (status_filter (f all) (Some data)) with data.
  rewrite (List.filter_ext (status_callback (f within)) isWithinLimits_filter)
    by reflexivity.
  rewrite (List.filter_ext (status_callback (f outside))
             (fun m => negb (isWithinLimits_filter m))) by reflexivity.
  split.
  - apply filter_split_length.
  - intros m Hm. rewrite !filter_In.
    destruct (isWithinLimits_filter m); simpl; [left|right];
      (split; [auto|intros [_ H]; discriminate]).
Qed.

End ListViewProperties.

(* ===================================================================== *)
(** ** Limits that exclude every value *)
(* ===================================================================== *)

Section InvertedLimits.
Import Api MeasurementList Order.

Lemma lex_spec e1 m1 e2 m2 :
  match lex e1 m1 e2 m2 with
  | Lt => (e1 < e2)%Z \/ (e1 = e2 /\ (m1 < m2)%positive)
  | Eq => e1 = e2 /\ m1 = m2
  | Gt => (e2 < e1)%Z \/ (e1 = e2 /\ (m2 < m1)%positive)
  end.
Proof.
  unfold lex. change (Pos.compare_cont Eq m1 m2) with (Pos.compare m1 m2).
  destruct (Z.compare_spec e1 e2); auto.
  destruct (Pos.compare_spec m1 m2); auto.
Qed.

Lemma lex_pos e1 m1 e2 m2 :
  match (e1 ?= e2)%Z with
  | Eq => Pos.compare_cont Eq m1 m2
  | Lt => Lt
  | Gt => Gt
  end = lex e1 m1 e2 m2.
Proof. reflexivity. Qed.

Lemma lex_neg e1 m1 e2 m2 :
  match (e1 ?= e2)%Z with
  | Eq => CompOpp (Pos.compare_cont Eq m1 m2)
  | Lt => Gt
  | Gt => Lt
  end = CompOpp (lex e1 m1 e2 m2).
Proof. unfold lex. now destruct (e1 ?= e2)%Z. Qed.

Lemma SFleb_trans x y z :
  SFleb x y = true -> SFleb y z = true -> SFleb x z = true.
Proof.
  unfold SFleb.
  destruct x as [sx|sx| |sx mx ex], y as [sy|sy| |sy my ey],
    z as [sz|sz| |sz mz ez]; simpl;
    try discriminate; try reflexivity;
    try (destruct sx; simpl; (discriminate || reflexivity));
    try (destruct sy; simpl; (discriminate || reflexivity));
    try (destruct sz; simpl; (discriminate || reflexivity));
    try (destruct sx, sy; simpl; (discriminate || reflexivity));
    try (destruct sy, sz; simpl; (discriminate || reflexivity));
    try (destruct sx, sz; simpl; (discriminate || reflexivity));
    try (destruct sx, sy, sz; simpl; (discriminate || reflexivity)).
  change PosDef.Pos.compare_cont with Pos.compare_cont.
  pose proof (lex_spec ex mx ey my) as H1.
  pose proof (lex_spec ey my ez mz) as H2.
  pose proof (lex_spec ex mx ez mz) as H3.
  revert H1 H2 H3.
  destruct sx, sy, sz; simpl; try (intros; (discriminate || reflexivity));
    rewrite ?lex_neg, ?lex_pos;
    destruct (lex ex mx ey my), (lex ey my ez mz), (lex ex mx ez mz);
    simpl; intros H1 H2 H3 Ha Hb;
    first [reflexivity | discriminate | exfalso; lia].
Qed.

(** The comparison of binary64 values is transitive. *)
Lemma leb_trans (a c d : Js.number) :
  PrimFloat.leb a c = true -> PrimFloat.leb c d = true ->
  PrimFloat.leb a d = true.
Proof. rewrite !FloatAxioms.leb_spec. apply SFleb_trans. Qed.

Lemma ltb_not_leb (a c : Js.number) :
  PrimFloat.ltb a c = true -> PrimFloat.leb c a = false.
Proof.
  rewrite FloatAxioms.ltb_spec, FloatAxioms.leb_spec.
  unfold SFltb, SFleb. rewrite (SFcompare_swap (Prim2SF a) (Prim2SF c)).
  destruct (SFcompare (Prim2SF a) (Prim2SF c)) as [[]|];
    simpl; intros H; (discriminate || reflexivity).
Qed.

(** X13.  A parameter whose max_value is below its min_value puts every
    measurement out of limits: whatever the value, the row's status is
    'Out of Limits', the 'within' filter drops it and the 'outside' filter
    keeps it. *)
Theorem inverted_limits_exclude_all (m : Measurement) (lo hi : Js.number) :
  min_value (quality_parameters m) = Some lo ->
  max_value (quality_parameters m) = Some hi ->
  PrimFloat.ltb hi lo = true ->
  isWithinLimits_row m = false
  /\ badge m = "Out of Limits"
  /\ (forall sd ed p,
        status_callback {| startDate := sd; endDate := ed; parameter := p;
                           status := within |} m = false
        /\ status_callback {| startDate := sd; endDate := ed; parameter := p;
                              status := outside |} m = true).
Proof.
  intros Hlo Hhi Hinv.
  assert (Hout : isWithinLimits_row m = false).
  { unfold isWithinLimits_row. rewrite Hlo, Hhi. simpl.
    rewrite ge_leb, le_leb.
    destruct (PrimFloat.leb lo (value m)) eqn:H1; [|reflexivity].
    destruct (PrimFloat.leb (value m) hi) eqn:H2; [|reflexivity].
    pose proof (leb_trans _ _ _ H1 H2) as H.
    now rewrite (ltb_not_leb _ _ Hinv) in H. }
  split; [exact Hout|]. split; [unfold badge; now rewrite Hout|].
  intros sd ed p. unfold status_callback; simpl.
  rewrite isWithinLimits_filter_row, Hout. auto.
Qed.

End InvertedLimits.

(* ===================================================================== *)
(** ** The control plan form and the parameter loaders *)
(* ===================================================================== *)

Section ControlPlanProperties.
Import Catalog ControlPlanForm.

Variable b : backend.

Ltac run_catalog :=
  cbv [run handleSubmit Parameters.form_loadParameters
       Parameters.list_loadParameters bind try_finally try_catch await
       set_state throw ret prog_bind fst snd].



(** X17.  When the parameters cannot be loaded, both loaders only log the
    error: the component's state, its error message included, is left as
    it was, so the failure is not shown to the user.  When they can, the
    parameters become the rows answered, or the empty list when the answer
    carries no rows, and every other cell of the state is as it was. *)
Theorem loadParameters_fails_silently (w : world b)
  (f : MeasurementForm.State) (l : MeasurementList.State) :
  (let '(r, w1) := respond b _ select_all w in
   match failure r with
   | Some e =>
       let '(u, w2) := respond b _ (console_error "Error loading parameters:" e) w1 in
       run b (Parameters.form_loadParameters f) w
       = ((f, inr u), w2,
          [Event select_all r;
           Event (console_error "Error loading parameters:" e) u])
   | None =>
       run b (Parameters.form_loadParameters f) w
       = (({| MeasurementForm.parameters :=
                match rows r with Some answered => answered | None => [] end;
              MeasurementForm.selectedParameter :=
                MeasurementForm.selectedParameter f;
              MeasurementForm.value := MeasurementForm.value f;
              MeasurementForm.loading := MeasurementForm.loading f;
              MeasurementForm.error := MeasurementForm.error f;
              MeasurementForm.success := MeasurementForm.success f |},
           inr tt), w1, [Event select_all r])
   end)
  /\ (let '(r, w1) := respond b _ select_id_name w in
      match failure r with
      | Some e =>
          let '(u, w2) := respond b _ (console_error "Error loading parameters:" e) w1 in
          run b (Parameters.list_loadParameters l) w
          = ((l, inr u), w2,
             [Event select_id_name r;
              Event (console_error "Error loading parameters:" e) u])
      | None =>
          run b (Parameters.list_loadParameters l) w
          = (({| MeasurementList.measurements :=
                   MeasurementList.measurements l;
                 MeasurementList.loading := MeasurementList.loading l;
                 MeasurementList.error := MeasurementList.error l;
                 MeasurementList.editingId := MeasurementList.editingId l;
                 MeasurementList.editValue := MeasurementList.editValue l;
                 MeasurementList.updateSuccess :=
                   MeasurementList.updateSuccess l;
                 MeasurementList.deletingId := MeasurementList.deletingId l;
                 MeasurementList.parameters :=
                   match rows r with Some answered => answered | None => [] end;
                 MeasurementList.filters := MeasurementList.filters l |},
              inr tt), w1, [Event select_id_name r])
      end).
Proof.
  split; run_catalog.
  - destruct (respond b _ select_all w) as [r w1].
    destruct (failure r) as [e|].
    + destruct (respond b _ (console_error "Error loading parameters:" e) w1)
        as [u w2]. reflexivity.
    + destruct (rows r); reflexivity.
  - destruct (respond b _ select_id_name w) as [r w1].
    destruct (failure r) as [e|].
    + destruct (respond b _ (console_error "Error loading parameters:" e) w1)
        as [u w2]. reflexivity.
    + destruct (rows r); reflexivity.
Qed.

End ControlPlanProperties.

(* ===================================================================== *)
(** ** The gate of the private routes *)
(* ===================================================================== *)

Section ShellProperties.
Import Api Shell.

(** [checkUser] against a backend is the notice of what the lookup
    answered. *)
Lemma checkUser_receives (b : backend) (w : world b) (g : Gate) :
  let '(user, w1) := respond b _ auth_getUser w in
  run b (checkUser g) w
  = ((receive g (user_checked user), inr tt), w1, [Event auth_getUser user]).
Proof.
  cbv [run checkUser bind await set_state prog_bind].
  destruct (respond b _ auth_getUser w) as [user w1]. reflexivity.
Qed.

Lemma listener_receives (g : Gate) (session : option Session) :
  on_auth_state_change session g
  = Ret (receive g (auth_changed session), inr tt).
Proof. reflexivity. Qed.

Lemma deliver_gone (notices : list notice) :
  fold_left deliver notices gone_to_login = gone_to_login.
Proof. induction notices as [|n rest IH]; [reflexivity|exact IH]. Qed.

Lemma deliver_signed_in (notices : list notice) :
  fold_left deliver notices
    (on_screen {| loading := false; authenticated := true |})
  = if forallb carries_user notices
    then on_screen {| loading := false; authenticated := true |}
    else gone_to_login.
Proof.
  induction notices as [|n rest IH]; [reflexivity|]. simpl.
  unfold receive, render; simpl.
  destruct (carries_user n); simpl; [exact IH|apply deliver_gone].
Qed.

(** X18.  A private route shows its page only while a user is signed in:
    until the lookup or the auth listener has reported it shows the
    loading line, never the page and never the redirect; it shows the page
    as long as every report so far carried a user; and the first report
    that carries none sends it to /login, after which it is off the screen
    and no later report brings the page back.  [checkUser] alone shows the
    page exactly when the lookup answers a user. *)
Theorem private_route_shows_page_while_signed_in (notices : list notice) :
  render mounted = gate_loading
  /\ fold_left deliver notices (on_screen mounted)
     = match notices with
       | [] => on_screen mounted
       | _ :: _ =>
           if forallb carries_user notices
           then on_screen {| loading := false; authenticated := true |}
           else gone_to_login
       end
  /\ render {| loading := false; authenticated := true |} = children
  /\ (forall (b : backend) (w : world b),
        render (fst (fst (fst (run b (checkUser mounted) w))))
        = if truthy (fst (respond b _ auth_getUser w))
          then children else to_login).
Proof.
  split; [reflexivity|]. split; [|split; [reflexivity|]].
  - destruct notices as [|n rest]; [reflexivity|]. simpl.
    unfold receive, render; simpl.
    destruct (carries_user n); simpl;
      [apply deliver_signed_in|apply deliver_gone].
  - intros b w. pose proof (checkUser_receives b w mounted) as H.
    destruct (respond b _ auth_getUser w) as [user w1]. rewrite H. simpl.
    now destruct user.
Qed.

(** X19.  Every route of the app other than /login is behind the gate:
    with no user signed in, a visit of any route of the table ends on the
    login form at /login (the root by way of /dashboard); with a user
    signed in, each private path shows its own page and the root shows the
    dashboard; and while the gate is loading no private page is shown. *)
Theorem routes_are_gated (path : string) (e : element) :
  In (path, e) routes ->
  visit 2 {| loading := false; authenticated := false |} path
  = ("/login", login_screen)
  /\ (forall p, e = PrivateRoute p ->
        visit 2 {| loading := false; authenticated := true |} path
        = (path, page_screen p)
        /\ visit 2 mounted path = (path, loading_screen))
  /\ (e <> LoginForm ->
      forall g p, snd (visit 2 g path) = page_screen p ->
                  authenticated g = true /\ loading g = false).
Proof.
  intros Hin. simpl in Hin.
  repeat (destruct Hin as [Hin|Hin];
          [inversion Hin; subst; clear Hin;
           (split; [reflexivity|]); split;
           [intros p Hp; inversion Hp; subst; split; reflexivity
           |intros Hne g p; try congruence;
            destruct g as [[] []]; cbv; intros H; try discriminate; auto]|]).
  contradiction.
Qed.

End ShellProperties.

(* ===================================================================== *)
(** ** The further statements at concrete inputs *)
(* ===================================================================== *)

Lemma rows_untouched_by_others_witness :
  Tenancy.steps [Examples.alices_row] Samples.bobs_history
    [Examples.alices_row; Samples.bobs_row]
  /\ Tenancy.owned_by "a1" [Examples.alices_row; Samples.bobs_row]
     = Tenancy.owned_by "a1" [Examples.alices_row].
Proof.
  assert (H : Tenancy.steps [Examples.alices_row] Samples.bobs_history
                [Examples.alices_row; Samples.bobs_row]).
  { eapply Tenancy.steps_cons.
    - apply (Schema.step_insert _ [Examples.alices_row] Samples.bobs_row).
      reflexivity.
    - eapply Tenancy.steps_cons; [|apply Tenancy.steps_nil].
      apply (Schema.step_select _ (fun _ => true)). }
  split; [exact H|].
  apply (rows_untouched_by_others "a1" _ _ _ H).
  repeat constructor; discriminate.
Defined.

Lemma table_only_grows_witness :
  Tenancy.steps [Examples.alices_row] Samples.bobs_history
    [Examples.alices_row; Samples.bobs_row]
  /\ length [Examples.alices_row; Samples.bobs_row]
     = (length [Examples.alices_row] + Tenancy.inserts Samples.bobs_history)%nat.
Proof.
  assert (H : Tenancy.steps [Examples.alices_row] Samples.bobs_history
                [Examples.alices_row; Samples.bobs_row]).
  { eapply Tenancy.steps_cons.
    - apply (Schema.step_insert _ [Examples.alices_row] Samples.bobs_row).
      reflexivity.
    - eapply Tenancy.steps_cons; [|apply Tenancy.steps_nil].
      apply (Schema.step_select _ (fun _ => true)). }
  split; [exact H|]. exact (table_only_grows _ _ _ H).
Defined.

Lemma provisioning_invariants_witness :
  Provisioning.consistent Examples.before_backfill
  /\ exists d',
       Schema.backfill 7%Z Examples.before_backfill = inr d'
       /\ Provisioning.consistent d' /\ Provisioning.provisioned d'.
Proof.
  assert (Hc : Provisioning.consistent Examples.before_backfill).
  { repeat split; apply NoDup_singleton. }
  split; [exact Hc|].
  eexists. split; [vm_compute; reflexivity|].
  apply (provisioning_invariants 7%Z Examples.before_backfill _ Hc).
  vm_compute. reflexivity.
Defined.

Lemma backfill_idempotent_witness :
  exists d',
    Schema.backfill 7%Z Examples.before_backfill = inr d'
    /\ Schema.backfill 8%Z d' = inr d'.
Proof.
  eexists. split; [vm_compute; reflexivity|].
  apply (backfill_idempotent 7%Z Examples.before_backfill).
  vm_compute. reflexivity.
Defined.

Lemma error_is_final_witness :
  MeasurementList.error Samples.list_failed = Some "permission denied"
  /\ "permission denied" <> ""
  /\ exists s',
       ListView.session (Api.scripted Examples.accepting) Samples.prints_NaN
         (ListView.on_row 0 ListView.Delete :: Samples.presses)
         Samples.list_failed 0%nat
       = (s', 0%nat, [])
       /\ MeasurementList.error s' = Some "permission denied"
       /\ MeasurementList.measurements s'
          = MeasurementList.measurements Samples.list_failed.
Proof.
  split; [reflexivity|]. split; [discriminate|].
  refine (proj1 (error_is_final (Api.scripted Examples.accepting)
                   Samples.prints_NaN
                   (ListView.on_row 0 ListView.Delete :: Samples.presses)
                   Samples.list_failed 0%nat "permission denied" eq_refl _)).
  discriminate.
Defined.

Lemma no_delete_without_delete_click_witness :
  MeasurementList.deletingId Examples.list_editing = None
  /\ Forall (fun ev => ListView.is_delete_click ev = false) Samples.presses
  /\ Forall (fun e => ListView.is_delete_call e = false)
       (snd (ListView.session (Api.scripted Examples.accepting)
               Samples.prints_NaN Samples.presses Examples.list_editing 0%nat)).
Proof.
  assert (H : Forall (fun ev => ListView.is_delete_click ev = false)
                Samples.presses) by (repeat constructor).
  split; [reflexivity|]. split; [exact H|].
  exact (no_delete_without_delete_click (Api.scripted Examples.accepting)
           Samples.prints_NaN Samples.presses Examples.list_editing 0%nat
           eq_refl H).
Defined.

Lemma save_keeps_rows_witness :
  Js.parseFloat (MeasurementList.editValue Samples.list_saving)
  = Api.value (Examples.reading "m2" 9.99%float)
  /\ MeasurementList.measurements
       (fst (fst (fst (Api.run (Api.scripted Examples.accepting)
                         (MeasurementList.handleUpdate Samples.list_saving
                            (Examples.reading "m2" 9.99%float)
                            Samples.list_saving) 0%nat))))
     = MeasurementList.measurements Samples.list_saving.
Proof.
  assert (Hsame : Js.parseFloat (MeasurementList.editValue Samples.list_saving)
                  = Api.value (Examples.reading "m2" 9.99%float))
    by (vm_compute; reflexivity).
  split; [exact Hsame|].
  destruct (save_keeps_rows (Api.scripted Examples.accepting)
              Samples.list_saving (Examples.reading "m2" 9.99%float)
              9.99%float) as (_ & _ & H).
  apply (H 0%nat).
  - simpl.
    repeat (apply NoDup_cons;
            split; [rewrite list_elem_of_In; simpl; intuition discriminate|]).
    apply NoDup_nil. exact I.
  - right. left. reflexivity.
  - vm_compute. reflexivity.
  - exact Hsame.
  - reflexivity.
Defined.

Lemma inverted_limits_exclude_all_witness :
  PrimFloat.ltb 10%float 20%float = true
  /\ MeasurementList.isWithinLimits_row Samples.inverted = false
  /\ MeasurementList.badge Samples.inverted = "Out of Limits".
Proof.
  split; [reflexivity|].
  destruct (inverted_limits_exclude_all Samples.inverted 20%float 10%float
              eq_refl eq_refl eq_refl) as (H1 & H2 & _).
  split; [exact H1 | exact H2].
Defined.


Lemma routes_are_gated_witness :
  In ("/measurements", Shell.PrivateRoute Shell.MeasurementList) Shell.routes
  /\ Shell.visit 2 {| Shell.loading := false; Shell.authenticated := false |}
       "/measurements"
     = ("/login", Shell.login_screen).
Proof.
  assert (H : In ("/measurements", Shell.PrivateRoute Shell.MeasurementList)
                Shell.routes) by (simpl; tauto).
  split; [exact H|].
  exact (proj1 (routes_are_gated _ _ H)).
Defined.
